(** * DataQualityAgent front end: session orchestration and response rendering

    A shallow embedding of the React front end (App.js, the ApiService
    gateway, ChatInterface, MessageBubble, DataChart) and the properties
    of its session state machine, conversation log, error classification,
    quick-action dispatch and artifact rendering.

    The front end is JavaScript working on JSON payloads, so the model starts
    with the fragment of JavaScript the components use: dynamically typed
    values, truthiness, [||], property reads, optional chaining, [ToString]
    and the array methods [some], [map] and [filter].  Every handler is then
    transcribed over that fragment.  An [async] handler is split at its
    [await]: the part before it and the continuation that runs when the
    awaited promise settles. *)

From stdpp Require Import base option list strings gmap.
From Stdlib Require Import ZArith Ascii String Permutation DecimalString Lia.
From Stdlib Require Import Sorted.

Set Warnings "-register-all".

Open Scope Z_scope.
Open Scope string_scope.

(* ===================================================================== *)
(** * JavaScript values and exceptions                                    *)
(* ===================================================================== *)

Module JS.

(** Values that occur at run time in the modelled code: [undefined], the
    results of [JSON.parse] (numbers restricted to the integers a double
    holds exactly, below 2^53 in magnitude, which print in plain decimal;
    fractions and larger numbers are left out) and the members
    every object literal inherits from [Object.prototype], which are built-in
    functions or, for [__proto__], the prototype object itself.  An object
    is the list of its own properties; a read takes the first entry with the
    requested key.  Strings are sequences of code units below 256. *)
Inductive value : Type :=
| VUndefined
| VNull
| VBool (b : bool)
| VNum (n : Z)
| VStr (s : string)
| VArr (elems : list value)
| VObj (props : list (string * value))
| VNative (name : string).

(** What a [throw] carries.  The code throws [new Error(msg)]; the engine
    throws a [TypeError] on a property read from [null] or [undefined], on a
    call of something that is not a function and on a failed conversion to a
    primitive.  Both have a [message]. *)
Inductive exn : Type :=
| Error (message : string)
| TypeError (message : string).

Definition exn_message (e : exn) : string :=
  match e with Error m | TypeError m => m end.

(** An expression either yields a value or throws. *)
Inductive completion (A : Type) : Type :=
| Normal (a : A)
| Throw (e : exn).

Arguments Normal {A} a.
Arguments Throw {A} e.

#[global] Instance completion_ret : MRet completion := @Normal.
#[global] Instance completion_bind : MBind completion :=
  fun A B f c => match c with Normal a => f a | Throw e => Throw e end.
#[global] Instance completion_fmap : FMap completion :=
  fun A B f c => match c with Normal a => Normal (f a) | Throw e => Throw e end.

(** Truthiness ([ToBoolean]). *)
Definition truthy (v : value) : bool :=
  match v with
  | VUndefined | VNull => false
  | VBool b => b
  | VNum n => negb (n =? 0)%Z
  | VStr EmptyString => false
  | VStr (String _ _) => true
  | VArr _ | VObj _ | VNative _ => true
  end.

(** [a || b] where [b] has no effect of its own. *)
Definition or_else (a b : value) : value := if truthy a then a else b.

Definition nullish (v : value) : bool :=
  match v with VUndefined | VNull => true | _ => false end.

(** [v === 'lit'] against a string literal. *)
Definition is_string (lit : string) (v : value) : bool :=
  match v with VStr s => String.eqb s lit | _ => false end.

(** Own property of an object. *)
Fixpoint own (props : list (string * value)) (k : string) : option value :=
  match props with
  | [] => None
  | (k', v) :: rest => if String.eqb k' k then Some v else own rest k
  end.

(** Names of the members of [Object.prototype]. *)
Definition objectPrototype : list string :=
  [ "constructor"; "toString"; "toLocaleString"; "valueOf";
    "hasOwnProperty"; "isPrototypeOf"; "propertyIsEnumerable";
    "__defineGetter__"; "__defineSetter__"; "__lookupGetter__";
    "__lookupSetter__"; "__proto__" ].

Definition inherited (k : string) : value :=
  if existsb (String.eqb k) objectPrototype then VNative k else VUndefined.

Definition describe_nullish (v : value) : string :=
  match v with VNull => "null" | _ => "undefined" end.

Definition cannot_read (v : value) (k : string) : exn :=
  TypeError ("Cannot read properties of " ++ describe_nullish v
             ++ " (reading '" ++ k ++ "')").

Definition not_a_function (what : string) : exn :=
  TypeError (what ++ " is not a function").

(** [v.k] on JSON data [v] that is neither [null] nor [undefined], for the
    property names the components read ([result], [status], [issues],
    [severity], [type], [title], [headers], [rows], [chart_type], [data],
    [text], [action], [style], [x], [y], [message], [detail], [components],
    [tool_results]) and for [length].  None of the former is a member of a
    built-in prototype, so the read yields the own property or [undefined];
    [length] is an own property of arrays and strings.  (A [VNative] is
    never read from: the handlers store none where the components read
    properties.) *)
Definition read (v : value) (k : string) : value :=
  match v with
  | VObj props => default (inherited k) (own props k)
  | VArr l => if String.eqb k "length" then VNum (Z.of_nat (List.length l))
              else inherited k
  | VStr s => if String.eqb k "length" then VNum (Z.of_nat (String.length s))
              else inherited k
  | _ => inherited k
  end.

(** [v.k]: reading from [null] or [undefined] throws. *)
Definition get (v : value) (k : string) : completion value :=
  if nullish v then Throw (cannot_read v k) else Normal (read v k).

(** [v?.k]: never throws. *)
Definition get_opt (v : value) (k : string) : value :=
  if nullish v then VUndefined else read v k.

(** [arr.some(cb)] on the elements: stops at the first truthy answer. *)
Fixpoint some_elems (cb : value -> completion value) (l : list value)
  : completion bool :=
  match l with
  | [] => Normal false
  | x :: rest =>
      r ← cb x;
      if truthy r then Normal true else some_elems cb rest
  end.

(** [arr.map(cb)] on the elements. *)
Fixpoint map_elems {A} (cb : value -> completion A) (l : list value)
  : completion (list A) :=
  match l with
  | [] => Normal []
  | x :: rest => y ← cb x; ys ← map_elems cb rest; Normal (y :: ys)
  end.

(** [arr.filter(cb)] on the elements. *)
Fixpoint filter_elems (cb : value -> completion value) (l : list value)
  : completion (list value) :=
  match l with
  | [] => Normal []
  | x :: rest =>
      r ← cb x;
      ys ← filter_elems cb rest;
      Normal (if truthy r then x :: ys else ys)
  end.

(** [v.some(cb)]: only arrays have the method. *)
Definition some (what : string) (v : value) (cb : value -> completion value)
  : completion value :=
  match v with
  | VArr l => b ← some_elems cb l; Normal (VBool b)
  | VUndefined | VNull => Throw (cannot_read v "some")
  | _ => Throw (not_a_function (what ++ ".some"))
  end.

(** [v?.some(cb)]: [undefined] for [null] and [undefined]; the engine
    names the optional call in the message of its TypeError. *)
Definition some_opt (what : string) (v : value)
  (cb : value -> completion value) : completion value :=
  match v with
  | VUndefined | VNull => Normal VUndefined
  | VArr l => b ← some_elems cb l; Normal (VBool b)
  | _ => Throw (not_a_function (what ++ "?.some"))
  end.

(** [v > 0] for the value of a [length] property: a number is compared as
    it is, [true] counts as 1, [undefined] is not a number and [null]
    counts as 0.  A [length] that is itself a string, an array or an object
    would first be converted to a number; data of that shape is left out and
    answers as [undefined] does. *)
Definition positive (v : value) : bool :=
  match v with
  | VNum n => (0 <? n)%Z
  | VBool b => b
  | _ => false
  end.

Definition join_with (sep : string) (parts : list string) : string :=
  match parts with
  | [] => EmptyString
  | p :: ps => fold_left (fun acc q => acc ++ sep ++ q) ps p
  end.

(** Decimal rendering of an integer, as a template literal renders it. *)
Definition decimal (n : Z) : string := NilZero.string_of_int (Z.to_int n).

(** [ToString].  A plain object answers ["[object Object]"] through the
    inherited [toString], unless an own property of that name (never a
    function in JSON data) hides it, in which case the conversion fails.
    An array joins the conversions of its elements with commas, [null] and
    [undefined] elements giving the empty string. *)
Fixpoint toStr (v : value) : completion string :=
  match v with
  | VUndefined => Normal "undefined"
  | VNull => Normal "null"
  | VBool true => Normal "true"
  | VBool false => Normal "false"
  | VNum n => Normal (decimal n)
  | VStr s => Normal s
  | VArr l =>
      parts ← (fix go (l : list value) : completion (list string) :=
                 match l with
                 | [] => Normal []
                 | x :: rest =>
                     s ← (if nullish x then Normal EmptyString else toStr x);
                     ss ← go rest;
                     Normal (s :: ss)
                 end) l;
      Normal (join_with "," parts)
  | VObj props =>
      match own props "toString" with
      | Some _ => Throw (TypeError "Cannot convert object to primitive value")
      | None => Normal "[object Object]"
      end
  | VNative name =>
      if String.eqb name "__proto__" then Normal "[object Object]"
      else Normal ("function "
                   ++ (if String.eqb name "constructor" then "Object" else name)
                   ++ "() { [native code] }")
  end.

(** White space of [String.prototype.trim] among code units below 256. *)
Definition is_space (c : ascii) : bool :=
  let n := nat_of_ascii c in
  ((9 <=? n) && (n <=? 13) || (n =? 32) || (n =? 160))%nat.

Fixpoint trim_start (s : string) : string :=
  match s with
  | EmptyString => EmptyString
  | String c rest => if is_space c then trim_start rest else s
  end.

Fixpoint trim_end (s : string) : string :=
  match s with
  | EmptyString => EmptyString
  | String c rest =>
      match trim_end rest with
      | EmptyString => if is_space c then EmptyString else String c EmptyString
      | t => String c t
      end
  end.

(** [s.trim()]. *)
Definition trim (s : string) : string := trim_end (trim_start s).

(** [haystack.includes(needle)]. *)
Fixpoint includes (needle haystack : string) : bool :=
  String.prefix needle haystack
  || match haystack with
     | EmptyString => false
     | String _ rest => includes needle rest
     end.

End JS.

Import JS.

(* ===================================================================== *)
(** * ApiService: the gateway to the backend                              *)
(* ===================================================================== *)

Module ApiService.

(** [axios.create({ timeout: 30000, ... })]: milliseconds. *)
Definition timeout : Z := 30000.

Inductive request : Type :=
| GET (url : string)
| POST (url : string) (body : value).

(** What axios passes to the response interceptor: a response with its
    status and parsed body, or an error that carries the response when one
    arrived and says whether the request had been sent. *)
Record AxiosResponse : Type := { status : Z; data : value }.

Record AxiosError : Type :=
  { response : option AxiosResponse;
    request_sent : bool;
    message : string }.

(** How a call ends on the wire. *)
Inductive no_reply : Type := NetworkFailure | TimeoutExceeded.

Inductive transport : Type :=
| Reply (r : AxiosResponse)
| NoReply (cause : no_reply)
| NotSent (reason : string).

(** The contract of axios the gateway builds on: a 2xx reply fulfils the
    call, any other reply rejects it with the response attached, a request
    that got no reply (network failure, or none within [timeout]) rejects
    with the request attached and no response, and a failure before the
    request was sent rejects with neither. *)
Definition axios (t : transport) : AxiosResponse + AxiosError :=
  match t with
  | Reply r =>
      if ((200 <=? status r) && (status r <? 300))%Z then inl r
      else inr {| response := Some r; request_sent := true;
                  message := "Request failed with status code "
                             ++ decimal (status r) |}
  | NoReply NetworkFailure =>
      inr {| response := None; request_sent := true;
             message := "Network Error" |}
  | NoReply TimeoutExceeded =>
      inr {| response := None; request_sent := true;
             message := "timeout of " ++ decimal timeout ++ "ms exceeded" |}
  | NotSent reason =>
      inr {| response := None; request_sent := false; message := reason |}
  end.

(** [new Error(v)] for a [v] that is not [undefined]. *)
Definition newError (v : value) : completion exn :=
  m ← toStr v; Normal (Error m).

(** The response interceptor's handler for a fulfilled call. *)
Definition onFulfilled (r : AxiosResponse) : completion AxiosResponse :=
  Normal r.

(** The response interceptor's handler for a rejected call. *)
Definition onRejected (error : AxiosError) : completion AxiosResponse :=
  match response error with
  | Some r =>
      let detail := get_opt (data r) "detail" in
      let msg := get_opt (data r) "message" in
      e ← newError
            (or_else detail
               (or_else msg (VStr ("Server error: " ++ decimal (status r)))));
      Throw e
  | None =>
      if request_sent error then
        Throw (Error "Cannot connect to server. Please make sure the backend is running.")
      else
        Throw (Error (match message error with
                      | EmptyString => "An unexpected error occurred"
                      | m => m
                      end))
  end.

(** [const response = await this.api.<verb>(...); return response.data;] *)
Definition call (t : transport) : completion value :=
  r ← match axios t with
      | inl r => onFulfilled r
      | inr e => onRejected e
      end;
  Normal (data r).

Definition healthCheck_request : request := GET "/health".

Definition uploadData_request (filePath : value) : request :=
  POST "/upload-data" (VObj [("file_path", filePath)]).

Definition sendMessage_request (message : value) : request :=
  POST "/chat" (VObj [("message", message)]).

Definition getAvailableTools_request : request := GET "/tools".

Definition executeTool_request (toolName : string) (params : value) : request :=
  POST ("/tool/" ++ toolName) (VObj [("params", params)]).

End ApiService.

(* ===================================================================== *)
(** * App: session status, conversation log and the handlers              *)
(* ===================================================================== *)

Module App.

(** The values [appStatus] takes: ['idle'], ['connecting'], ... *)
Inductive SessionStatus : Type :=
| idle | connecting | connected | loading | processing | error | disconnected.

#[global] Instance SessionStatus_eq_dec : EqDecision SessionStatus.
Proof. solve_decision. Defined.

Inductive role : Type := user | agent.

(** A message object as the handlers build it; a field the object literal
    does not mention reads as [undefined]. *)
Record Message : Type :=
  { id : Z;
    type : role;
    content : value;
    timestamp : Z;
    components : value;
    toolResults : value }.

Record AppState : Type :=
  { dataPath : string;
    isDataLoaded : bool;
    appStatus : SessionStatus;
    messages : list Message }.

(** The state setters a handler calls, in order; [AppendMessage m] is
    [setMessages(prev => [...prev, m])]. *)
Inductive update : Type :=
| SetDataPath (p : string)
| SetIsDataLoaded (b : bool)
| SetAppStatus (s : SessionStatus)
| AppendMessage (m : Message).

Definition apply (s : AppState) (u : update) : AppState :=
  match u with
  | SetDataPath p =>
      {| dataPath := p; isDataLoaded := isDataLoaded s;
         appStatus := appStatus s; messages := messages s |}
  | SetIsDataLoaded b =>
      {| dataPath := dataPath s; isDataLoaded := b;
         appStatus := appStatus s; messages := messages s |}
  | SetAppStatus st =>
      {| dataPath := dataPath s; isDataLoaded := isDataLoaded s;
         appStatus := st; messages := messages s |}
  | AppendMessage m =>
      {| dataPath := dataPath s; isDataLoaded := isDataLoaded s;
         appStatus := appStatus s; messages := (messages s ++ [m])%list |}
  end.

Definition commit (s : AppState) (us : list update) : AppState :=
  fold_left apply us s.

(** The status writes among a handler's updates. *)
Definition status_writes (us : list update) : list SessionStatus :=
  omap (fun u => match u with SetAppStatus s => Some s | _ => None end) us.

(** The messages a handler appends. *)
Definition appended (us : list update) : list Message :=
  omap (fun u => match u with AppendMessage m => Some m | _ => None end) us.

Definition welcome (stamp : Z) : Message :=
  {| id := 1; type := agent;
     content := VStr "Hello! I'm your Marketing Campaign Data Quality Agent. I can help you validate, fix, and analyze your campaign data. To get started, please upload a CSV file with your marketing campaign data.";
     timestamp := stamp;
     components := VArr [];
     toolResults := VUndefined |}.

Definition initial (stamp : Z) : AppState :=
  {| dataPath := EmptyString; isDataLoaded := false;
     appStatus := idle; messages := [welcome stamp] |}.

(** ** checkBackendHealth *)

Definition checkBackendHealth_begin : list update * ApiService.request :=
  ([SetAppStatus connecting], ApiService.healthCheck_request).

Definition checkBackendHealth_settle (r : completion value) : list update :=
  match r with
  | Normal _ => [SetAppStatus connected]
  | Throw _ => [SetAppStatus disconnected]
  end.

(** ** handleDataUpload *)

Definition button (text action style : string) : value :=
  VObj [("type", VStr "button"); ("text", VStr text);
        ("action", VStr action); ("style", VStr style)].

Definition dquote : string := String "034"%char EmptyString.

Definition handleDataUpload_begin (filePath : string)
  : list update * ApiService.request :=
  ([SetAppStatus loading], ApiService.uploadData_request (VStr filePath)).

(** [now] is what [Date.now()] reads and [stamp] the instant of
    [new Date()] in the continuation. *)
Definition handleDataUpload_settle (now stamp : Z) (filePath : string)
  (r : completion value) : list update :=
  match r with
  | Normal _ =>
      [ SetDataPath filePath; SetIsDataLoaded true; SetAppStatus connected;
        AppendMessage
          {| id := now; type := agent;
             content := VStr ("Great! I've loaded your data from " ++ dquote
                              ++ filePath ++ dquote
                              ++ ". I can now help you validate, analyze, and fix any issues in your marketing campaign data. What would you like me to do first?");
             timestamp := stamp;
             components :=
               VArr [ button "Validate Data Quality" "validate_data" "primary";
                      button "Detect Anomalies" "detect_anomalies" "secondary";
                      button "Get Data Insights" "get_insights" "accent" ];
             toolResults := VUndefined |} ]
  | Throw e =>
      [ SetAppStatus error;
        AppendMessage
          {| id := now; type := agent;
             content := VStr ("Sorry, I couldn't load the data file. Please make sure the file path is correct and the file exists. Error: "
                              ++ exn_message e);
             timestamp := stamp;
             components := VArr [];
             toolResults := VUndefined |} ]
  end.

(** ** handleSendMessage *)

Definition handleSendMessage_begin (now stamp : Z) (message : value)
  : list update * ApiService.request :=
  ([ AppendMessage
       {| id := now; type := user; content := message; timestamp := stamp;
          components := VUndefined; toolResults := VUndefined |};
     SetAppStatus processing ],
   ApiService.sendMessage_request message).

(** The agent message built from a response. *)
Definition agentMessage (now stamp : Z) (response : value)
  : completion Message :=
  content ← get response "message";
  components ← get response "components";
  tool_results ← get response "tool_results";
  Normal {| id := now + 1; type := agent; content := content;
            timestamp := stamp;
            components := or_else components (VArr []);
            toolResults := or_else tool_results (VArr []) |}.

Definition errorMessage (now stamp : Z) (e : exn) : Message :=
  {| id := now + 1; type := agent;
     content := VStr ("Sorry, I encountered an error processing your request: "
                      ++ exn_message e);
     timestamp := stamp;
     components := VArr [];
     toolResults := VUndefined |}.

(** The continuation after [await ApiService.sendMessage(message)]: the
    rest of the [try] block, or the [catch] block when the call rejected or
    building the agent message threw. *)
Definition handleSendMessage_settle (now stamp : Z) (r : completion value)
  : list update :=
  match (response ← r; agentMessage now stamp response) with
  | Normal m => [AppendMessage m; SetAppStatus connected]
  | Throw e => [SetAppStatus error; AppendMessage (errorMessage now stamp e)]
  end.

(** ** handleQuickAction *)

(** The own properties of the [actionMap] object literal. *)
Definition actionMap : gmap string string :=
  list_to_map
    [ ("validate_data", "Please validate my data quality");
      ("detect_anomalies", "Please detect any anomalies in my data");
      ("get_insights", "Please give me insights about my campaign data");
      ("fix_data", "Please fix the data quality issues");
      ("fix_anomalies", "Please fix the detected anomalies") ].

(** [actionMap[key]]: an own property, else what the literal inherits from
    [Object.prototype], else [undefined]. *)
Definition actionMap_get (key : string) : value :=
  match actionMap !! key with
  | Some prompt => VStr prompt
  | None => inherited key
  end.

(** [const message = actionMap[action] || action;] the computed key is
    [action] converted to a string. *)
Definition handleQuickAction_message (action : value) : completion value :=
  key ← toStr action;
  Normal (or_else (actionMap_get key) action).

(** [handleQuickAction] up to the [await] inside [handleSendMessage]. *)
Definition handleQuickAction_begin (now stamp : Z) (action : value)
  : completion (list update * ApiService.request) :=
  message ← handleQuickAction_message action;
  Normal (handleSendMessage_begin now stamp message).

(** [isLoading={appStatus === 'processing'}], the prop given to
    ChatInterface. *)
Definition isLoading (s : AppState) : bool :=
  bool_decide (appStatus s = processing).

End App.

(* ===================================================================== *)
(** * ChatInterface: the input form                                       *)
(* ===================================================================== *)

Module ChatInterface.

(** [handleSubmit]: the argument [onSendMessage] is called with, if it is
    called, and the input value afterwards. *)
Definition handleSubmit (isLoading : bool) (inputValue : string)
  : option string * string :=
  if truthy (VStr (trim inputValue)) && negb isLoading
  then (Some (trim inputValue), EmptyString)
  else (None, inputValue).

(** The form as App mounts it: [isLoading] is [appStatus === 'processing']
    and [onSendMessage] is [handleSendMessage].  Gives the request issued by
    a submission, if any. *)
Definition submit (now stamp : Z) (s : App.AppState) (inputValue : string)
  : option (list App.update * ApiService.request) :=
  App.handleSendMessage_begin now stamp ∘ VStr
    <$> fst (handleSubmit (App.isLoading s) inputValue).

End ChatInterface.

(* ===================================================================== *)
(** * DataChart                                                           *)
(* ===================================================================== *)

Module DataChart.

Inductive ChartComponent : Type := Bar | Line.

(** What the component shows: the placeholder for missing data, or the
    chart drawn by the selected react-chartjs-2 component with its labels,
    dataset label and data.  Colours and chart options are left out. *)
Inductive view : Type :=
| NoDataMessage (title : value)
| Chart (component : ChartComponent) (title labels label data : value).

(** [function DataChart({ type = 'bar', title, data, options = {} })].
    The placeholder is returned when
    [!data || !data.x || !data.y || data.x.length === 0]; the reads in that
    test happen only on truthy receivers, so they are written with the
    reads that cannot throw. *)
Definition DataChart (type title data : value) : completion view :=
  let type := match type with VUndefined => VStr "bar" | _ => type end in
  let x := get_opt data "x" in
  let y := get_opt data "y" in
  let len := get_opt x "length" in
  if negb (truthy data) || negb (truthy x) || negb (truthy y)
     || match len with VNum 0 => true | _ => false end
  then Normal (NoDataMessage (or_else title (VStr "Chart")))
  else Normal (Chart (if is_string "line" type then Line else Bar)
                 (or_else title (VStr "Chart"))
                 (or_else x (VArr []))
                 (or_else title (VStr "Data"))
                 (or_else y (VArr []))).

End DataChart.

(* ===================================================================== *)
(** * MessageBubble                                                       *)
(* ===================================================================== *)

Module MessageBubble.

(** The props of the elements [renderComponent] creates.  [onClick] holds
    the argument the click handler [() => onQuickAction(component.action)]
    passes on. *)
Record ActionButtonProps : Type :=
  { text : value; onClick : value; style : value; size : value }.

Inductive element : Type :=
| DataTable (title headers rows : value)
| DataChart (type title data : value)
| ActionButton (props : ActionButtonProps).

Definition renderComponent (component : value) : completion (option element) :=
  ty ← get component "type";
  if is_string "table" ty then
    title ← get component "title";
    headers ← get component "headers";
    rows ← get component "rows";
    Normal (Some (DataTable title headers rows))
  else if is_string "chart" ty then
    chart_type ← get component "chart_type";
    title ← get component "title";
    data ← get component "data";
    Normal (Some (DataChart (or_else chart_type (VStr "bar")) title data))
  else if is_string "button" ty then
    text ← get component "text";
    action ← get component "action";
    style ← get component "style";
    Normal (Some (ActionButton {| text := text; onClick := action;
                                  style := style; size := VUndefined |}))
  else Normal None.

(** [result => result.result?.status === 'error'] *)
Definition isErrorResult (result : value) : completion value :=
  r ← get result "result";
  Normal (VBool (is_string "error" (get_opt r "status"))).

(** [issue => issue.severity === 'warning'] *)
Definition isWarningIssue (issue : value) : completion value :=
  sev ← get issue "severity";
  Normal (VBool (is_string "warning" sev)).

(** [result => result.result?.result?.issues?.some(...)] *)
Definition hasWarningIssue (result : value) : completion value :=
  r ← get result "result";
  some_opt "result.result?.result?.issues"
    (get_opt (get_opt r "result") "issues") isWarningIssue.

Definition getMessageStatus (message : App.Message) : completion value :=
  if truthy (App.toolResults message) then
    hasErrors ← some "message.toolResults" (App.toolResults message)
                  isErrorResult;
    hasWarnings ← some "message.toolResults" (App.toolResults message)
                    hasWarningIssue;
    if truthy hasErrors then Normal (VStr "error")
    else if truthy hasWarnings then Normal (VStr "warning")
    else Normal (VStr "success")
  else Normal VNull.

(** [c => c.type === 'button'] *)
Definition isButton (c : value) : completion value :=
  ty ← get c "type"; Normal (VBool (is_string "button" ty)).

(** A button of the strip under the message. *)
Definition stripButton (button : value) : completion element :=
  text ← get button "text";
  action ← get button "action";
  style ← get button "style";
  Normal (ActionButton {| text := text; onClick := action;
                          style := style; size := VStr "small" |}).

(** What the bubble shows besides text and time: the status indicator when
    the status is truthy, the rendered components when there are any, and
    the strip of buttons when one of the components is a button. *)
Record view : Type :=
  { statusIndicator : option value;
    componentsContainer : option (list (option element));
    buttonGroup : option (list element) }.

(** The component's render.  A truthy [message.components] that is not an
    array has neither [map] nor [filter], so the render throws: at [map]
    when its [length] is above 0 (a string, an object with such a field),
    at [filter] otherwise. *)
Definition MessageBubbleComponent (message : App.Message) : completion view :=
  messageStatus ← getMessageStatus message;
  let indicator :=
    if truthy messageStatus then Some messageStatus else None in
  let components := App.components message in
  if truthy components then
    match components with
    | VArr cs =>
        shown ← (if (0 <? Z.of_nat (List.length cs))%Z
                 then Some <$> map_elems renderComponent cs
                 else Normal None);
        buttons ← filter_elems isButton cs;
        strip ← (if (0 <? Z.of_nat (List.length buttons))%Z
                 then Some <$> map_elems stripButton buttons
                 else Normal None);
        Normal {| statusIndicator := indicator;
                  componentsContainer := shown;
                  buttonGroup := strip |}
    | _ =>
        if positive (read components "length")
        then Throw (not_a_function "message.components.map")
        else Throw (not_a_function "message.components.filter")
    end
  else Normal {| statusIndicator := indicator;
                 componentsContainer := None;
                 buttonGroup := None |}.

(** The buttons among rendered components, in order. *)
Definition buttons_of (shown : list (option element)) : list ActionButtonProps :=
  omap (fun e => match e with Some (ActionButton p) => Some p | _ => None end)
       shown.

(** [ActionButton]'s [handleClick]:
    [if (!disabled && !loading && onClick) onClick(e)]; the [onClick] of the
    buttons above is always the arrow function. *)
Definition handleClick (disabled loading : bool) (p : ActionButtonProps)
  : option value :=
  if negb disabled && negb loading then Some (onClick p) else None.

(** A click on a button of the bubble.  MessageBubble passes neither
    [disabled] nor [loading], so both have their default [false]; the arrow
    function calls [onQuickAction], which is [handleQuickAction]. *)
Definition click (now stamp : Z) (p : ActionButtonProps)
  : completion (option (list App.update * ApiService.request)) :=
  match handleClick false false p with
  | Some action => Some <$> App.handleQuickAction_begin now stamp action
  | None => Normal None
  end.

End MessageBubble.

(* ===================================================================== *)
(** * Sessions: handlers interleaved on the event loop                    *)
(* ===================================================================== *)

Module Session.

Import App.

(** The three operations that go through a busy state. *)
Inductive operation : Type :=
| HealthCheck
| DataUpload (filePath : string)
| ChatTurn (message : value).

(** One turn of the event loop: an operation runs up to its [await], or the
    continuation of an awaited call runs with the call's outcome.  [now] and
    [stamp] are the clock readings of [Date.now()] and [new Date()] in that
    turn. *)
Inductive event : Type :=
| Begin (op : operation) (now stamp : Z)
| Settle (op : operation) (now stamp : Z) (r : completion value).

Definition begin_updates (op : operation) (now stamp : Z) : list update :=
  match op with
  | HealthCheck => fst checkBackendHealth_begin
  | DataUpload filePath => fst (handleDataUpload_begin filePath)
  | ChatTurn message => fst (handleSendMessage_begin now stamp message)
  end.

Definition settle_updates (op : operation) (now stamp : Z)
  (r : completion value) : list update :=
  match op with
  | HealthCheck => checkBackendHealth_settle r
  | DataUpload filePath => handleDataUpload_settle now stamp filePath r
  | ChatTurn _ => handleSendMessage_settle now stamp r
  end.

Definition updates_of (ev : event) : list update :=
  match ev with
  | Begin op now stamp => begin_updates op now stamp
  | Settle op now stamp r => settle_updates op now stamp r
  end.

Definition step (s : AppState) (ev : event) : AppState :=
  commit s (updates_of ev).

Definition run (s : AppState) (evs : list event) : AppState :=
  fold_left step evs s.

Definition busy (st : SessionStatus) : bool :=
  match st with
  | connecting | loading | processing => true
  | _ => false
  end.

(** The busy state an operation enters. *)
Definition busy_state (op : operation) : SessionStatus :=
  match op with
  | HealthCheck => connecting
  | DataUpload _ => loading
  | ChatTurn _ => processing
  end.

(** Whether the handler's [try] block ran to its end: the awaited call was
    fulfilled and, for a chat turn, the agent message could be built. *)
Definition succeeded (op : operation) (r : completion value) : bool :=
  match op, r with
  | ChatTurn _, Normal response => negb (nullish response)
  | _, Normal _ => true
  | _, Throw _ => false
  end.

(** The state an operation leaves its busy state for. *)
Definition exit_state (op : operation) (success : bool) : SessionStatus :=
  match op, success with
  | HealthCheck, true => connected
  | HealthCheck, false => disconnected
  | (DataUpload _ | ChatTurn _), true => connected
  | (DataUpload _ | ChatTurn _), false => error
  end.

End Session.

(* ===================================================================== *)
(** * Vocabulary of the statements                                        *)
(* ===================================================================== *)

Module Spec.

(** Where the components look in a tool result: the status under [result],
    the issues one level further down, under [result.result]. *)
Definition status_of (toolResult : value) : value :=
  get_opt (get_opt toolResult "result") "status".

Definition issues_read (toolResult : value) : value :=
  get_opt (get_opt (get_opt toolResult "result") "result") "issues".

(** Where the data model of the specification puts the issues: next to the
    status, directly under [result]. *)
Definition issues_beside_status (toolResult : value) : value :=
  get_opt (get_opt toolResult "result") "issues".

Definition has_error (toolResult : value) : bool :=
  is_string "error" (status_of toolResult).

Definition warning_among (issues : value) : bool :=
  match issues with
  | VArr l => existsb (fun issue => is_string "warning" (get_opt issue "severity")) l
  | _ => false
  end.

Definition has_warning (toolResult : value) : bool :=
  warning_among (issues_read toolResult).

(** A tool result as the backend sends it: an object whose issues, when
    present, are an array of objects. *)
Definition well_formed (toolResult : value) : bool :=
  negb (nullish toolResult)
  && match issues_read toolResult with
     | VArr l => forallb (fun issue => negb (nullish issue)) l
     | v => nullish v
     end.

(** The [toolResults] field of a message: absent, or an array of
    well-formed tool results. *)
Definition well_formed_results (toolResults : value) : bool :=
  match toolResults with
  | VArr l => forallb well_formed l
  | v => negb (truthy v)
  end.

(** The status the precedence error > warning > success gives. *)
Definition derived_status (toolResults : list value) : string :=
  if existsb has_error toolResults then "error"
  else if existsb has_warning toolResults then "warning"
  else "success".

Definition with_toolResults (m : App.Message) (trs : value) : App.Message :=
  {| App.id := App.id m; App.type := App.type m; App.content := App.content m;
     App.timestamp := App.timestamp m; App.components := App.components m;
     App.toolResults := trs |}.

(** A field of a response that is absent or an empty sequence. *)
Definition absent_or_empty (v : value) : bool :=
  match v with VUndefined | VArr [] => true | _ => false end.

Definition is_button (c : value) : bool := is_string "button" (get_opt c "type").
Definition is_chart (c : value) : bool := is_string "chart" (get_opt c "type").

(** The props of the button rendered for a button artifact. *)
Definition button_props (size : value) (c : value)
  : MessageBubble.ActionButtonProps :=
  {| MessageBubble.text := get_opt c "text";
     MessageBubble.onClick := get_opt c "action";
     MessageBubble.style := get_opt c "style";
     MessageBubble.size := size |}.

(** What a chart artifact ends up as on screen: [renderComponent] creates
    the DataChart element, DataChart renders it. *)
Definition display_chart (c : value) : completion (option DataChart.view) :=
  e ← MessageBubble.renderComponent c;
  match e with
  | Some (MessageBubble.DataChart type title data) =>
      Some <$> DataChart.DataChart type title data
  | _ => Normal None
  end.

(** The chart has something to plot: DataChart's guard for the placeholder
    does not fire. *)
Definition has_data (data : value) : bool :=
  truthy data && truthy (get_opt data "x") && truthy (get_opt data "y")
  && negb match get_opt (get_opt data "x") "length" with
          | VNum 0 => true
          | _ => false
          end.

Definition ids (s : App.AppState) : list Z := App.id <$> App.messages s.

(** The text of the error the gateway throws when a request got no
    response. *)
Definition cannot_connect : string :=
  "Cannot connect to server. Please make sure the backend is running.".

End Spec.

(* ===================================================================== *)
(** * Example data                                                        *)
(* ===================================================================== *)

Module Examples.

Import App.

Definition obj (props : list (string * value)) : value := VObj props.

Definition warning_issue : value :=
  obj [("severity", VStr "warning"); ("description", VStr "12 missing values in clicks")].

(** A tool result in the code's shape: issues under [result.result]. *)
Definition nested_warning : value :=
  obj [("tool", VStr "validate_data");
       ("result", obj [("status", VStr "success");
                       ("result", obj [("issues", VArr [warning_issue])])])].

(** A tool result in the shape of the specification's data model: issues
    next to the status. *)
Definition flat_warning : value :=
  obj [("toolName", VStr "validate_data");
       ("result", obj [("status", VStr "success");
                       ("issues", VArr [warning_issue])])].

Definition failed_tool : value :=
  obj [("tool", VStr "detect_anomalies");
       ("result", obj [("status", VStr "error")])].

Definition trend_chart (chart_type : value) (data : value) : value :=
  obj [("type", VStr "chart"); ("chart_type", chart_type);
       ("title", VStr "Clicks over time"); ("data", data)].

Definition trend_data : value :=
  obj [("x", VArr [VStr "Jan"; VStr "Feb"; VStr "Mar"]);
       ("y", VArr [VNum 120; VNum 95; VNum 143])].

(** A bar chart artifact whose series are empty. *)
Definition empty_bar_chart : value :=
  obj [("type", VStr "chart"); ("chart_type", VStr "bar");
       ("title", VStr "Clicks by campaign");
       ("data", obj [("x", VArr []); ("y", VArr [])])].

(** Components of a reply: two buttons around a chart. *)
Definition reply_components : list value :=
  [ button "Fix Detected Anomalies" "fix_anomalies" "primary";
    trend_chart (VStr "line") trend_data;
    button "Get Data Insights" "get_insights" "accent" ].

(** A button artifact in the shape of the specification's data model:
    [label], [actionId] and [styleHint] where the code reads [text],
    [action] and [style]. *)
Definition spec_button : value :=
  obj [("type", VStr "button"); ("label", VStr "Get Data Insights");
       ("actionId", VStr "get_insights"); ("styleHint", VStr "accent")].

Definition agent_message (components toolResults : value) : Message :=
  {| id := 1700000000001; type := agent; content := VStr "Done.";
     timestamp := 1700000000000;
     components := components; toolResults := toolResults |}.

(** A session in which a chat turn is sent one millisecond after the
    previous reply was displayed. *)
Definition quick_follow_up : list Session.event :=
  [ Session.Begin (Session.ChatTurn (VStr "Check my data quality")) 1700000001000 1700000001000;
    Session.Settle (Session.ChatTurn (VStr "Check my data quality")) 1700000003004 1700000003004
      (Normal (VObj [("message", VStr "No issues found.")]));
    Session.Begin (Session.ChatTurn (VStr "Show me trends over time")) 1700000003005 1700000003005 ].

End Examples.

(* ===================================================================== *)
(** * More of the engine's library                                        *)
(* ===================================================================== *)

Module Builtins.

(** [String.prototype.toLowerCase] on code units below 256: the letters
    A-Z and the accented capitals U+00C0-U+00DE, except the multiplication
    sign U+00D7, move up by 32. *)
Definition lower (c : ascii) : ascii :=
  let n := nat_of_ascii c in
  if ((65 <=? n) && (n <=? 90) || (192 <=? n) && (n <=? 214)
      || (216 <=? n) && (n <=? 222))%nat
  then ascii_of_nat (n + 32) else c.

Fixpoint toLowerCase (s : string) : string :=
  match s with
  | EmptyString => EmptyString
  | String c rest => String (lower c) (toLowerCase rest)
  end.

(** [s.replace(/\s+/g, '_')]: every maximal run of white space becomes one
    underscore.  [in_run] tells that the previous code unit was white
    space. *)
Fixpoint replace_runs (in_run : bool) (s : string) : string :=
  match s with
  | EmptyString => EmptyString
  | String c rest =>
      if is_space c
      then if in_run then replace_runs true rest
           else String "_"%char (replace_runs true rest)
      else String c (replace_runs false rest)
  end.

Definition replace_whitespace (s : string) : string := replace_runs false s.

(** The part of [s] after its last ['/'], if it has one. *)
Fixpoint after_last_slash (s : string) : option string :=
  match s with
  | EmptyString => None
  | String c rest =>
      match after_last_slash rest with
      | Some t => Some t
      | None => if Ascii.eqb c "/"%char then Some rest else None
      end
  end.

(** [s.split('/').pop()]. *)
Definition split_pop (s : string) : string :=
  default s (after_last_slash s).

(** [Array.prototype.sort(cmp)] on the elements: the sort is stable, and a
    comparator answer above zero puts its first argument behind the second.
    Insertion from the right is one such sort; for a comparator that orders
    the elements consistently every stable sort gives this result. *)
Fixpoint insert_sorted {A} (cmp : A -> A -> completion Z) (x : A) (l : list A)
  : completion (list A) :=
  match l with
  | [] => Normal [x]
  | y :: rest =>
      c ← cmp x y;
      if (0 <? c)%Z
      then (tail ← insert_sorted cmp x rest; Normal (y :: tail))
      else Normal (x :: y :: rest)
  end.

Fixpoint sort {A} (cmp : A -> A -> completion Z) (l : list A)
  : completion (list A) :=
  match l with
  | [] => Normal []
  | x :: rest => sorted ← sort cmp rest; insert_sorted cmp x sorted
  end.

End Builtins.

(* ===================================================================== *)
(** * Header: the status display                                          *)
(* ===================================================================== *)

Module Header.

Import App.

Inductive icon : Type :=
| CheckCircle | Loader | AlertCircle | WifiOff | Wifi | Activity.

Record StatusConfig : Type :=
  { statusIcon : icon; text : string; description : string }.

Definition getStatusConfig (status : SessionStatus) : StatusConfig :=
  match status with
  | connected =>
      {| statusIcon := CheckCircle; text := "Connected";
         description := "Ready to analyze your data" |}
  | processing =>
      {| statusIcon := Loader; text := "Processing";
         description := "Analyzing your request" |}
  | loading =>
      {| statusIcon := Loader; text := "Loading";
         description := "Loading data" |}
  | error =>
      {| statusIcon := AlertCircle; text := "Error";
         description := "Something went wrong" |}
  | disconnected =>
      {| statusIcon := WifiOff; text := "Disconnected";
         description := "Cannot connect to server" |}
  | connecting =>
      {| statusIcon := Wifi; text := "Connecting";
         description := "Establishing connection" |}
  | idle =>
      {| statusIcon := Activity; text := "Ready";
         description := "System ready" |}
  end.

(** The colours of the theme the indicator uses. *)
Definition success : string := "#10B981".
Definition info : string := "#3B82F6".
Definition warning : string := "#F59E0B".
Definition errorColor : string := "#EF4444".
Definition gray500 : string := "#64748B".
Definition gray600 : string := "#475569".

(** The text colour of [StatusIndicator]; [connecting] and [idle] have no
    case and take the default. *)
Definition color (status : SessionStatus) : string :=
  match status with
  | connected => success
  | processing => info
  | loading => warning
  | error => errorColor
  | disconnected => gray600
  | _ => gray500
  end.

End Header.

(* ===================================================================== *)
(** * Sidebar: loading a data source                                      *)
(* ===================================================================== *)

Module Sidebar.

Record State : Type := { inputPath : string; isLoading : bool }.

Definition initial : State :=
  {| inputPath := "/c:/Project/AIEngg/DataQualityAgentNew/sample_data/marketing_campaigns.csv";
     isLoading := false |}.

(** [handleLoad] up to its [await]: the local state afterwards and, when
    the path is not blank, what [onDataUpload] (App's [handleDataUpload])
    does before its own [await]. *)
Definition handleLoad_begin (st : State)
  : State * option (list App.update * ApiService.request) :=
  if truthy (VStr (trim (inputPath st)))
  then ({| inputPath := inputPath st; isLoading := true |},
        Some (App.handleDataUpload_begin (trim (inputPath st))))
  else (st, None).


Definition handleKeyPress (key : string) (st : State)
  : State * option (list App.update * ApiService.request) :=
  if String.eqb key "Enter" then handleLoad_begin st else (st, None).


(** The "Run Full Analysis" button:
    [isDataLoaded && onDataUpload && onDataUpload('')]. *)
Definition runFullAnalysis (isDataLoaded : bool)
  : option (list App.update * ApiService.request) :=
  if isDataLoaded then Some (App.handleDataUpload_begin EmptyString) else None.

(** The file name shown once data is loaded: [dataPath.split('/').pop()]. *)
Definition fileName (dataPath : string) : string := Builtins.split_pop dataPath.

(** The colour of the status line. *)
Definition statusColor (appStatus : App.SessionStatus) : string :=
  if bool_decide (appStatus = App.connected) then "#10B981" else "#EF4444".

(** Which of the two is shown: the path input with its button, or the
    "Data Loaded Successfully" note. *)
Definition showsPathInput (isDataLoaded : bool) : bool := negb isDataLoaded.

End Sidebar.

(* ===================================================================== *)
(** * ChatInterface: keys, controls and what is on screen                 *)
(* ===================================================================== *)

Module ChatView.

Import App.

(** [handleKeyPress]: Enter without Shift submits the form. *)
Definition handleKeyPress (key : string) (shiftKey : bool) (isLoading : bool)
  (inputValue : string) : option string * string :=
  if String.eqb key "Enter" && negb shiftKey
  then ChatInterface.handleSubmit isLoading inputValue
  else (None, inputValue).

(** [disabled={!inputValue.trim() || isLoading}] of the send button. *)
Definition sendDisabled (isLoading : bool) (inputValue : string) : bool :=
  negb (truthy (VStr (trim inputValue))) || isLoading.

(** [disabled={isLoading}] of the text area. *)
Definition inputDisabled (isLoading : bool) : bool := isLoading.

Definition placeholder (isDataLoaded : bool) : string :=
  if isDataLoaded then "Ask me about your data quality..."
  else "Upload data first, then ask me anything...".

(** What a suggestion of the QuickActions bar does when clicked. *)
Inductive suggestionAction : Type :=
| SendMessage (message : string)
| QuickAction (action : string).

Record suggestion : Type := { text : string; action : suggestionAction }.

(** The suggestions offered before any data is loaded. *)
Definition starterSuggestions : list suggestion :=
  [ {| text := "Load Sample Data";
       action := SendMessage "Load sample marketing campaign data for demonstration" |};
    {| text := "How does this work?";
       action := SendMessage "How does this data quality agent work?" |};
    {| text := "What can you analyze?";
       action := SendMessage "What types of data quality issues can you detect?" |} ].

Definition quickActionSuggestions : list suggestion :=
  [ {| text := "Validate Data Quality"; action := QuickAction "validate_data" |};
    {| text := "Detect Anomalies"; action := QuickAction "detect_anomalies" |};
    {| text := "Get Data Insights"; action := QuickAction "get_insights" |};
    {| text := "Check Completeness"; action := QuickAction "check_completeness" |} ].

(** What the interface shows for a state of the App. *)
Record view : Type :=
  { welcomeArea : bool;
    bubbles : list Message;
    loadingIndicator : bool;
    quickActions : list suggestion }.

(** The QuickActions component shows nothing for an empty list, so an
    absent bar and an empty one are the same. *)
Definition render (s : AppState) : view :=
  let fresh := (List.length (messages s) =? 1)%nat && negb (isDataLoaded s) in
  {| welcomeArea := fresh;
     bubbles := if fresh then [] else messages s;
     loadingIndicator := negb fresh && isLoading s;
     quickActions :=
       ((if negb (isDataLoaded s) && (List.length (messages s) =? 1)%nat
         then starterSuggestions else [])
        ++ (if isDataLoaded s then quickActionSuggestions else []))%list |}.

(** A click on a suggestion, up to the [await] in [handleSendMessage]. *)
Definition clickSuggestion (now stamp : Z) (a : suggestionAction)
  : completion (list update * ApiService.request) :=
  match a with
  | SendMessage message => Normal (handleSendMessage_begin now stamp (VStr message))
  | QuickAction id => handleQuickAction_begin now stamp (VStr id)
  end.

End ChatView.

(* ===================================================================== *)
(** * DataChart: the dataset's look and the download                      *)
(* ===================================================================== *)

Module ChartDataset.

(** The fields of the dataset that depend on the kind of chart, except
    [tension], which is a fraction. *)
Record style : Type :=
  { backgroundColor : string;
    fill : bool;
    pointRadius : Z;
    pointHoverRadius : Z }.

Definition datasetStyle (type : value) : style :=
  let type := match type with VUndefined => VStr "bar" | _ => type end in
  {| backgroundColor := if is_string "bar" type
                        then "rgba(59, 130, 246, 0.8)"
                        else "rgba(59, 130, 246, 0.1)";
     fill := is_string "line" type;
     pointRadius := if is_string "line" type then 5 else 0;
     pointHoverRadius := if is_string "line" type then 7 else 0 |}.

(** The name [handleDownload] gives the image of a mounted chart:
    [`${title?.replace(/\s+/g, '_').toLowerCase() || 'chart'}.png`].  Only
    strings have [replace]. *)
Definition downloadName (title : value) : completion string :=
  if nullish title then Normal "chart.png"
  else match title with
       | VStr s =>
           let name := Builtins.toLowerCase (Builtins.replace_whitespace s) in
           Normal ((if truthy (VStr name) then name else "chart") ++ ".png")
       | _ => Throw (not_a_function "title?.replace")
       end.

End ChartDataset.

(* ===================================================================== *)
(** * DataTable                                                           *)
(* ===================================================================== *)

Module DataTable.

Inductive direction : Type := asc | desc.

(** [key] is [null] or the index of a column. *)
Record SortConfig : Type := { key : option nat; dir : direction }.

Record State : Type :=
  { searchTerm : string; sortConfig : SortConfig; currentPage : nat }.

Definition initial : State :=
  {| searchTerm := EmptyString;
     sortConfig := {| key := None; dir := asc |};
     currentPage := 1 |}.

Definition itemsPerPage : nat := 10.

(** [setSearchTerm(e.target.value)] *)
Definition setSearchTerm (term : string) (st : State) : State :=
  {| searchTerm := term; sortConfig := sortConfig st;
     currentPage := currentPage st |}.

Definition handleSort (sortable : bool) (columnIndex : nat) (st : State)
  : State :=
  if negb sortable then st
  else
    let direction :=
      match key (sortConfig st), dir (sortConfig st) with
      | Some k, asc => if (k =? columnIndex)%nat then desc else asc
      | _, _ => asc
      end in
    {| searchTerm := searchTerm st;
       sortConfig := {| key := Some columnIndex; dir := direction |};
       currentPage := currentPage st |}.

(** The user's actions on a table; the component has no control that
    changes the page. *)
Inductive action : Type :=
| Search (term : string)
| ClickHeader (columnIndex : nat).

Definition act (sortable : bool) (st : State) (a : action) : State :=
  match a with
  | Search term => setSearchTerm term st
  | ClickHeader columnIndex => handleSort sortable columnIndex st
  end.

(** [cell => String(cell).toLowerCase().includes(searchTerm.toLowerCase())] *)
Definition cellMatches (term : string) (cell : value) : completion value :=
  s ← toStr cell;
  Normal (VBool (includes (Builtins.toLowerCase term) (Builtins.toLowerCase s))).

(** [rows.filter(row => row.some(...))] *)
Definition filteredRows (term : string) (rows : value)
  : completion (list value) :=
  match rows with
  | VArr l => filter_elems (fun row => some "row" row (cellMatches term)) l
  | VUndefined | VNull => Throw (cannot_read rows "filter")
  | _ => Throw (not_a_function "rows.filter")
  end.

(** [a[k]] on a row; the rows that pass the filter are arrays. *)
Definition cell (row : value) (k : nat) : value :=
  match row with
  | VArr l => nth k l VUndefined
  | _ => VUndefined
  end.

Section comparison.

(** The engine's relational comparison [a < b]. *)
Variable lt : value -> value -> completion bool.

(** The comparator given to [sort]; [!sortConfig.key] holds for [null] and
    for column 0. *)
Definition compareRows (cfg : SortConfig) (a b : value) : completion Z :=
  match key cfg with
  | None | Some O => Normal 0%Z
  | Some k =>
      let aValue := cell a k in
      let bValue := cell b k in
      less ← lt aValue bValue;
      if less : bool
      then Normal (match dir cfg with asc => -1 | desc => 1 end)%Z
      else
        greater ← lt bValue aValue;
        if greater : bool
        then Normal (match dir cfg with asc => 1 | desc => -1 end)%Z
        else Normal 0%Z
  end.

Definition sortedRows (st : State) (rows : value) : completion (list value) :=
  filtered ← filteredRows (searchTerm st) rows;
  Builtins.sort (compareRows (sortConfig st)) filtered.

(** What the table shows: the note for no rows, or the header cells, the
    texts of the rows of the page and, when there is more than one page,
    the footer "Showing from-to of total entries".  The page is
    [sortedRows.slice(startIndex, startIndex + itemsPerPage)]; for a page
    number 0 the slice would run from -10 to 0 and be empty. *)
Inductive view : Type :=
| NoDataMessage (text : string)
| Table (headers : list value) (body : list (list string))
    (footer : option (nat * nat * nat)).

(** [row.map(cell => String(cell))] *)
Definition rowTexts (row : value) : completion (list string) :=
  match row with
  | VArr l => map_elems toStr l
  | VUndefined | VNull => Throw (cannot_read row "map")
  | _ => Throw (not_a_function "row.map")
  end.

Definition DataTable (headers rows : value) (st : State) : completion view :=
  sorted ← sortedRows st rows;
  let total := List.length sorted in
  let totalPages := ((total + itemsPerPage - 1) / itemsPerPage)%nat in
  let startIndex := ((currentPage st - 1) * itemsPerPage)%nat in
  let paginatedRows :=
    match currentPage st with
    | O => []
    | S _ => firstn itemsPerPage (skipn startIndex sorted)
    end in
  match paginatedRows with
  | [] =>
      Normal (NoDataMessage
                (if truthy (VStr (searchTerm st))
                 then "No results found for " ++ App.dquote ++ searchTerm st
                      ++ App.dquote
                 else "No data available"))
  | _ :: _ =>
      hs ← match headers with
           | VArr l => Normal l
           | VUndefined | VNull => Throw (cannot_read headers "map")
           | _ => Throw (not_a_function "headers.map")
           end;
      body ← map_elems rowTexts paginatedRows;
      Normal (Table hs body
                (if (1 <? totalPages)%nat
                 then Some ((startIndex + 1)%nat,
                            Nat.min (startIndex + itemsPerPage) total,
                            total)
                 else None))
  end.

End comparison.

End DataTable.

(* ===================================================================== *)
(** * Vocabulary of the further statements                                *)
(* ===================================================================== *)

Module Facts.

Import App Session.

(** An upload that completed successfully, and its path. *)
Definition uploaded (ev : event) : option string :=
  match ev with
  | Settle (DataUpload filePath) _ _ (Normal _) => Some filePath
  | _ => None
  end.

(** The chat messages submitted in a session, in order. *)
Definition submitted (ev : event) : option value :=
  match ev with
  | Begin (ChatTurn message) _ _ => Some message
  | _ => None
  end.

(** Whether a turn of the event loop appends a message. *)
Definition appends (ev : event) : bool :=
  match ev with
  | Begin (ChatTurn _) _ _ => true
  | Settle (ChatTurn _) _ _ _ => true
  | Settle (DataUpload _) _ _ _ => true
  | _ => false
  end.

Definition is_user (m : Message) : bool :=
  match type m with user => true | agent => false end.

Definition user_contents (ms : list Message) : list value :=
  content <$> List.filter is_user ms.

(** A component whose [type] one of the cases of [renderComponent]
    handles. *)
Definition recognised (c : value) : bool :=
  let ty := get_opt c "type" in
  is_string "table" ty || is_string "chart" ty || is_string "button" ty.

Definition not_nullish (v : value) : bool := negb (nullish v).

Fixpoint all_space (s : string) : bool :=
  match s with
  | EmptyString => true
  | String c rest => is_space c && all_space rest
  end.

Fixpoint last_char (s : string) : option ascii :=
  match s with
  | EmptyString => None
  | String c EmptyString => Some c
  | String _ rest => last_char rest
  end.

Definition first_char (s : string) : option ascii :=
  match s with EmptyString => None | String c _ => Some c end.

(** Every code unit of [s] satisfies [p]. *)
Fixpoint every (p : ascii -> bool) (s : string) : bool :=
  match s with
  | EmptyString => true
  | String c rest => p c && every p rest
  end.

Definition is_ascii_capital (c : ascii) : bool :=
  let n := nat_of_ascii c in ((65 <=? n) && (n <=? 90))%nat.

Definition no_slash (c : ascii) : bool := negb (Ascii.eqb c "/"%char).

Definition flip (d : DataTable.direction) : DataTable.direction :=
  match d with DataTable.asc => DataTable.desc | DataTable.desc => DataTable.asc end.

(** The order a direction asks for. *)
Definition in_order (d : DataTable.direction) (x y : Z) : Prop :=
  match d with DataTable.asc => (x <= y)%Z | DataTable.desc => (y <= x)%Z end.

(** Two rows whose numbers stand in the order asked for. *)
Definition ordered {A} (num : A -> option Z) (d : DataTable.direction)
  (a b : A) : Prop :=
  exists x y, num a = Some x /\ num b = Some y /\ in_order d x y.

(** A value [String(...)] converts without throwing. *)
Definition printable (v : value) : bool :=
  match toStr v with Normal _ => true | Throw _ => false end.

(** A row as the backend sends it: an array of printable cells. *)
Definition printable_row (row : value) : bool :=
  match row with VArr cells => forallb printable cells | _ => false end.

(** A row with at least one cell. *)
Definition has_cells (row : value) : bool :=
  match row with VArr (_ :: _) => true | _ => false end.

(** Neither white space nor an ASCII capital. *)
Definition clean (c : ascii) : bool :=
  negb (is_space c) && negb (is_ascii_capital c).

(** A row of a table: an array of cells. *)
Definition is_row (row : value) : bool :=
  match row with VArr _ => true | _ => false end.

(** The integer in column [k] of a row, if there is one. *)
Definition number_at (k : nat) (row : value) : option Z :=
  match DataTable.cell row k with VNum n => Some n | _ => None end.

(** The comparison of the engine restricted to what the statements need:
    on two numbers it is the order of the numbers. *)
Definition numeric_lt (a b : value) : completion bool :=
  match a, b with
  | VNum x, VNum y => Normal (x <? y)%Z
  | _, _ => Normal false
  end.

End Facts.

(* ===================================================================== *)
(** * Facts about the JavaScript fragment                                 *)
(* ===================================================================== *)

Section js_facts.

Lemma get_not_nullish v k : nullish v = false -> get v k = Normal (get_opt v k).
Proof. unfold get, get_opt. now intros ->. Qed.

Lemma get_nullish v k : nullish v = true -> get v k = Throw (cannot_read v k).
Proof. unfold get. now intros ->. Qed.

(** [some] over callbacks that answer without throwing is [existsb]. *)
Lemma some_elems_existsb (cb : value -> completion value) (f : value -> bool) l :
  Forall (fun x => exists r, cb x = Normal r /\ truthy r = f x) l ->
  some_elems cb l = Normal (existsb f l).
Proof.
  induction 1 as [|x l (r & Hcb & Hr) _ IH]; simpl; [reflexivity|].
  rewrite Hcb. simpl. rewrite Hr. destruct (f x); [reflexivity|exact IH].
Qed.

Lemma map_elems_map {A} (cb : value -> completion A) (f : value -> A) l :
  Forall (fun x => cb x = Normal (f x)) l ->
  map_elems cb l = Normal (map f l).
Proof.
  induction 1 as [|x l Hx _ IH]; simpl; [reflexivity|].
  rewrite Hx. simpl. rewrite IH. reflexivity.
Qed.

Lemma filter_elems_filter (cb : value -> completion value) (f : value -> bool) l :
  Forall (fun x => exists r, cb x = Normal r /\ truthy r = f x) l ->
  filter_elems cb l = Normal (List.filter f l).
Proof.
  induction 1 as [|x l (r & Hcb & Hr) _ IH]; simpl; [reflexivity|].
  rewrite Hcb. simpl. rewrite IH. simpl. rewrite Hr. reflexivity.
Qed.

Lemma existsb_Permutation {A} (f : A -> bool) l l' :
  Permutation l l' -> existsb f l = existsb f l'.
Proof.
  induction 1 as [|x l l' _ IH|x y l|l l' l'' _ IH1 _ IH2]; simpl.
  - reflexivity.
  - now rewrite IH.
  - now destruct (f x), (f y).
  - now rewrite IH1.
Qed.

Lemma forallb_Permutation {A} (f : A -> bool) l l' :
  Permutation l l' -> forallb f l = forallb f l'.
Proof.
  induction 1 as [|x l l' _ IH|x y l|l l' l'' _ IH1 _ IH2]; simpl.
  - reflexivity.
  - now rewrite IH.
  - now destruct (f x), (f y).
  - now rewrite IH1.
Qed.

Lemma map_elems_lookup {A} (cb : value -> completion A) l ys :
  map_elems cb l = Normal ys ->
  List.length ys = List.length l
  /\ forall i x, nth_error l i = Some x ->
       exists y, nth_error ys i = Some y /\ cb x = Normal y.
Proof.
  revert ys. induction l as [|x l IH]; intros ys; simpl.
  - intros [= <-]. split; [reflexivity|]. now intros [|i] x.
  - destruct (cb x) as [y|e] eqn:Hx; [|discriminate]. simpl.
    destruct (map_elems cb l) as [ys'|e] eqn:Hl; [|discriminate]. simpl.
    intros [= <-]. destruct (IH ys' eq_refl) as [Hlen Hnth].
    split; [simpl; now rewrite Hlen|].
    intros [|i] x'; simpl.
    + intros [= <-]. now exists y.
    + apply Hnth.
Qed.


End js_facts.

(* ===================================================================== *)
(** * Status derivation (MessageBubble.getMessageStatus)                  *)
(* ===================================================================== *)

Section status_derivation.

Import MessageBubble Spec.

Lemma isErrorResult_spec tr :
  nullish tr = false ->
  isErrorResult tr = Normal (VBool (has_error tr)).
Proof.
  intros H. unfold isErrorResult, has_error, status_of.
  rewrite (get_not_nullish _ _ H). reflexivity.
Qed.

Lemma isWarningIssue_spec issue :
  nullish issue = false ->
  isWarningIssue issue = Normal (VBool (is_string "warning" (get_opt issue "severity"))).
Proof.
  intros H. unfold isWarningIssue. rewrite (get_not_nullish _ _ H). reflexivity.
Qed.

Lemma hasWarningIssue_spec tr :
  well_formed tr = true ->
  exists r, hasWarningIssue tr = Normal r /\ truthy r = has_warning tr.
Proof.
  unfold well_formed, hasWarningIssue, has_warning.
  intros [Hn Hi]%andb_prop. apply negb_true_iff in Hn.
  rewrite (get_not_nullish _ _ Hn). simpl.
  fold (issues_read tr). destruct (issues_read tr) as [| | | | |l| |] eqn:E;
    try discriminate Hi.
  - exists VUndefined. split; reflexivity.
  - exists VUndefined. split; reflexivity.
  - unfold some_opt, some. simpl.
    erewrite some_elems_existsb.
    + eexists. split; [reflexivity|]. reflexivity.
    + rewrite forallb_forall in Hi. apply List.Forall_forall. intros x Hx.
      apply Hi in Hx. apply negb_true_iff in Hx.
      eexists. split; [apply isWarningIssue_spec, Hx|reflexivity].
Qed.

Lemma well_formed_not_nullish tr : well_formed tr = true -> nullish tr = false.
Proof. unfold well_formed. intros [H _]%andb_prop. now apply negb_true_iff. Qed.

(** On an array of well-formed tool results the derivation does not throw
    and follows the precedence. *)
Lemma getMessageStatus_array message trs :
  App.toolResults message = VArr trs ->
  forallb well_formed trs = true ->
  getMessageStatus message = Normal (VStr (derived_status trs)).
Proof.
  intros Htr Hwf. unfold getMessageStatus, derived_status. rewrite Htr. simpl.
  rewrite forallb_forall in Hwf.
  rewrite (some_elems_existsb isErrorResult has_error).
  2:{ apply List.Forall_forall. intros x Hx. eexists. split.
      - apply isErrorResult_spec, well_formed_not_nullish, Hwf, Hx.
      - reflexivity. }
  simpl.
  rewrite (some_elems_existsb hasWarningIssue has_warning).
  2:{ apply List.Forall_forall. intros x Hx.
      apply hasWarningIssue_spec, Hwf, Hx. }
  simpl. destruct (existsb has_error trs), (existsb has_warning trs); reflexivity.
Qed.

(** Whenever the [toolResults] field is absent or well formed, the
    derivation yields a value. *)
Lemma getMessageStatus_total message :
  well_formed_results (App.toolResults message) = true ->
  exists st, getMessageStatus message = Normal st.
Proof.
  intros H. destruct (App.toolResults message) as [| |b|n|s|l|props|name] eqn:E;
    simpl in H; try discriminate H.
  - unfold getMessageStatus. rewrite E. eexists; reflexivity.
  - unfold getMessageStatus. rewrite E. eexists; reflexivity.
  - apply negb_true_iff in H. unfold getMessageStatus. rewrite E. simpl.
    rewrite H. eexists; reflexivity.
  - apply negb_true_iff in H. unfold getMessageStatus. rewrite E. simpl in *.
    rewrite H. eexists; reflexivity.
  - apply negb_true_iff in H. unfold getMessageStatus. rewrite E. simpl in *.
    rewrite H. eexists; reflexivity.
  - eexists. eapply getMessageStatus_array; eassumption.
Qed.

End status_derivation.

Section status_badge.

Import MessageBubble Spec.

(** C1, as stated, does not hold: a tool result shaped as the data model of
    the specification has it, with the issues next to the status, contains
    an issue of severity warning and no error status, yet the derived status
    is success, not warning.  The derivation looks for issues one level
    further down, under [result.result]. *)
Lemma warning_beside_status_is_success :
  let m := Examples.agent_message (VArr []) (VArr [Examples.flat_warning]) in
  warning_among (issues_beside_status Examples.flat_warning) = true
  /\ has_error Examples.flat_warning = false
  /\ getMessageStatus m = Normal (VStr "success")
  /\ getMessageStatus m <> Normal (VStr "warning").
Proof. repeat split; try reflexivity. discriminate. Qed.

(** C1, amended: for every message whose [toolResults] is a non-empty array
    of well-formed tool results, the derived status is error if some tool
    result has [result.status === 'error']; otherwise warning if some tool
    result has an issue of severity warning among [result.result.issues];
    otherwise success; and the derived status is the same for every
    permutation of the array. *)
Theorem status_precedence (message : App.Message) (trs : list value) :
  App.toolResults message = VArr trs ->
  (0 < List.length trs)%nat ->
  forallb well_formed trs = true ->
  (existsb has_error trs = true ->
     getMessageStatus message = Normal (VStr "error"))
  /\ (existsb has_error trs = false -> existsb has_warning trs = true ->
     getMessageStatus message = Normal (VStr "warning"))
  /\ (existsb has_error trs = false -> existsb has_warning trs = false ->
     getMessageStatus message = Normal (VStr "success"))
  /\ (forall trs', Permutation trs trs' ->
     getMessageStatus (with_toolResults message (VArr trs'))
     = getMessageStatus message).
Proof.
  intros Htr _ Hwf.
  pose proof (getMessageStatus_array message trs Htr Hwf) as Hst.
  unfold derived_status in Hst.
  repeat split.
  - intros He. now rewrite He in Hst.
  - intros He Hw. now rewrite He, Hw in Hst.
  - intros He Hw. now rewrite He, Hw in Hst.
  - intros trs' Hp.
    rewrite (getMessageStatus_array (with_toolResults message (VArr trs')) trs').
    + rewrite Hst. unfold derived_status.
      now rewrite (existsb_Permutation has_error _ _ Hp),
                  (existsb_Permutation has_warning _ _ Hp).
    + reflexivity.
    + now rewrite <- (forallb_Permutation well_formed _ _ Hp).
Qed.

Lemma status_precedence_witness :
  getMessageStatus
    (Examples.agent_message (VArr [])
       (VArr [Examples.nested_warning; Examples.failed_tool]))
  = Normal (VStr "error")
  /\ getMessageStatus
       (Examples.agent_message (VArr []) (VArr [Examples.nested_warning]))
     = Normal (VStr "warning").
Proof.
  split.
  - apply (status_precedence _ [Examples.nested_warning; Examples.failed_tool]);
      [reflexivity | simpl; lia | reflexivity | reflexivity].
  - apply (status_precedence _ [Examples.nested_warning]);
      [reflexivity | simpl; lia | reflexivity | reflexivity | reflexivity].
Defined.

(** C2: a response whose [components] and [tool_results] are absent or
    empty does yield a message with both fields the empty array, but the
    bubble then shows the status indicator success.  The empty array is
    truthy, so the check [if (message.toolResults)], commented "Check if
    message has tool results", passes for a message without any. *)
Theorem empty_response_shows_success (now stamp : Z) (response : value) :
  nullish response = false ->
  absent_or_empty (get_opt response "components") = true ->
  absent_or_empty (get_opt response "tool_results") = true ->
  exists m,
    App.agentMessage now stamp response = Normal m
    /\ App.components m = VArr []
    /\ App.toolResults m = VArr []
    /\ MessageBubbleComponent m
       = Normal {| statusIndicator := Some (VStr "success");
                   componentsContainer := None;
                   buttonGroup := None |}.
Proof.
  intros Hn Hc Ht. unfold App.agentMessage.
  rewrite !(get_not_nullish _ _ Hn). simpl.
  eexists. split; [reflexivity|].
  destruct (get_opt response "components") as [| | | | |[|? ?]| |];
    try discriminate Hc;
    destruct (get_opt response "tool_results") as [| | | | |[|? ?]| |];
    try discriminate Ht; repeat split; reflexivity.
Qed.

Lemma empty_response_shows_success_witness :
  exists m,
    App.agentMessage 1700000000000 1700000000000
      (VObj [("message", VStr "You are welcome.")]) = Normal m
    /\ App.components m = VArr []
    /\ App.toolResults m = VArr []
    /\ MessageBubbleComponent m
       = Normal {| statusIndicator := Some (VStr "success");
                   componentsContainer := None;
                   buttonGroup := None |}.
Proof.
  apply (empty_response_shows_success 1700000000000 1700000000000
           (VObj [("message", VStr "You are welcome.")]));
    reflexivity.
Defined.

End status_badge.

(* ===================================================================== *)
(** * Error classification (ApiService) and its surfacing (App)           *)
(* ===================================================================== *)

Section gateway_errors.

Import ApiService Spec.

Lemma call_no_reply cause : call (NoReply cause) = Throw (Error cannot_connect).
Proof. destruct cause; reflexivity. Qed.

Lemma non_2xx_rejects r :
  (status r < 200 \/ 300 <= status r) ->
  axios (Reply r)
  = inr {| response := Some r; request_sent := true;
           message := "Request failed with status code " ++ decimal (status r) |}.
Proof.
  intros H. unfold axios.
  destruct (200 <=? status r)%Z eqn:E1, (status r <? 300)%Z eqn:E2;
    simpl; try reflexivity.
  apply Z.leb_le in E1. apply Z.ltb_lt in E2. lia.
Qed.

Lemma call_non_2xx r :
  (status r < 200 \/ 300 <= status r) ->
  call (Reply r)
  = (m ← toStr (or_else (get_opt (data r) "detail")
                  (or_else (get_opt (data r) "message")
                     (VStr ("Server error: " ++ decimal (status r)))));
     Throw (Error m)).
Proof.
  intros H. unfold call. rewrite (non_2xx_rejects r H).
  unfold onRejected, newError. cbn [response].
  now destruct (toStr _).
Qed.

Lemma truthy_string s : s <> EmptyString -> truthy (VStr s) = true.
Proof. now destruct s. Qed.

(** C3, as stated, does not hold: when the chat call times out, the message
    appended to the conversation does not contain "cannot reach backend";
    the gateway's fixed text is another one. *)
Lemma timeout_text_is_not_cannot_reach_backend :
  let outcome := call (NoReply TimeoutExceeded) in
  let us := App.handleSendMessage_settle 1700000030000 1700000030000 outcome in
  exists m c,
    App.appended us = [m]
    /\ App.content m = VStr c
    /\ includes "cannot reach backend" c = false
    /\ outcome <> Throw (Error "cannot reach backend").
Proof.
  do 2 eexists. repeat split; try reflexivity.
  intros H. vm_compute in H. discriminate H.
Qed.

(** C3, amended: every gateway call that ends without a response (network
    failure, or no reply within the fixed timeout of 30000 ms) throws an
    Error with the fixed message "Cannot connect to server. Please make sure
    the backend is running."; when the chat call ends so, the status goes
    from processing to error and exactly one agent message is appended,
    with no components, whose content contains that message. *)
Theorem no_reply_is_reported (cause : no_reply) (now stamp now' stamp' : Z)
  (message : value) (s : App.AppState) :
  let outcome := call (NoReply cause) in
  let s1 := App.commit s (fst (App.handleSendMessage_begin now stamp message)) in
  let us := App.handleSendMessage_settle now' stamp' outcome in
  let s2 := App.commit s1 us in
  timeout = 30000
  /\ outcome = Throw (Error cannot_connect)
  /\ App.appStatus s1 = App.processing
  /\ App.status_writes us = [App.error]
  /\ App.appStatus s2 = App.error
  /\ exists m c,
       App.appended us = [m]
       /\ App.messages s2 = (App.messages s1 ++ [m])%list
       /\ App.type m = App.agent
       /\ App.components m = VArr []
       /\ App.content m = VStr c
       /\ c = "Sorry, I encountered an error processing your request: "
              ++ cannot_connect
       /\ includes cannot_connect c = true.
Proof.
  cbv zeta. rewrite call_no_reply.
  repeat split. do 2 eexists. repeat split.
Qed.




End gateway_errors.

(* ===================================================================== *)
(** * The session: status machine and conversation log                    *)
(* ===================================================================== *)

Section session.

Import App Session.

Lemma last_cons_default {A} (x : A) l d d' :
  List.last (x :: l) d = List.last (x :: l) d'.
Proof.
  revert x. induction l as [|y l IH]; intros x; [reflexivity|].
  change (List.last (y :: l) d = List.last (y :: l) d'). apply IH.
Qed.

(** A handler's updates leave the status at its last status write. *)
Lemma appStatus_commit s us :
  appStatus (commit s us) = List.last (status_writes us) (appStatus s).
Proof.
  revert s. induction us as [|u us IH]; intros s; [reflexivity|].
  change (commit s (u :: us)) with (commit (apply s u) us). rewrite IH.
  destruct u; simpl; try reflexivity.
  destruct (status_writes us); [reflexivity|apply last_cons_default].
Qed.

(** The log only grows, by the messages a handler appends, at its end. *)
Lemma messages_commit s us :
  messages (commit s us) = (messages s ++ appended us)%list.
Proof.
  revert s. induction us as [|u us IH]; intros s.
  - simpl. now rewrite app_nil_r.
  - change (commit s (u :: us)) with (commit (apply s u) us). rewrite IH.
    destruct u; simpl; try reflexivity. now rewrite <- app_assoc.
Qed.

(** Over a whole session the log is extended by what each turn appends. *)
Lemma messages_run s evs :
  messages (run s evs)
  = (messages s ++ List.concat (map (fun ev => appended (updates_of ev)) evs))%list.
Proof.
  revert s. induction evs as [|ev evs IH]; intros s; simpl.
  - now rewrite app_nil_r.
  - rewrite IH. unfold step. now rewrite messages_commit, <- app_assoc.
Qed.

Lemma settle_writes op now stamp r :
  status_writes (settle_updates op now stamp r)
  = [exit_state op (succeeded op r)].
Proof.
  destruct op as [|filePath|message]; destruct r as [response|e];
    try reflexivity.
  unfold settle_updates, handleSendMessage_settle, agentMessage.
  simpl. unfold get. destruct (nullish response); reflexivity.
Qed.

(** C4, as stated, does not hold: in the loading state the form sends the
    chat turn, and a quick-action button sends one whatever the status,
    processing included, since [handleQuickAction] never looks at it. *)
Lemma submission_while_loading_is_sent :
  let s := {| dataPath := EmptyString; isDataLoaded := false;
              appStatus := loading; messages := [welcome 0] |} in
  appStatus s = loading
  /\ (exists us,
        ChatInterface.submit 5 5 s "Check my data quality"
        = Some (us, ApiService.POST "/chat"
                      (VObj [("message", VStr "Check my data quality")])))
  /\ (exists us,
        handleQuickAction_begin 5 5 (VStr "validate_data")
        = Normal (us, ApiService.POST "/chat"
                        (VObj [("message", VStr "Please validate my data quality")]))).
Proof. repeat split; eexists; reflexivity. Qed.

(** C4, amended: whenever the status is processing, a submission through
    the chat input form is rejected and no chat call is issued; the form
    accepts a submission exactly when the status is not processing and the
    trimmed input is not empty, and then issues the chat call with the
    trimmed input. *)
Theorem form_rejects_while_processing (now stamp : Z) (s : AppState)
  (inputValue : string) :
  (appStatus s = processing ->
     ChatInterface.submit now stamp s inputValue = None)
  /\ (appStatus s <> processing -> trim inputValue <> EmptyString ->
     ChatInterface.submit now stamp s inputValue
     = Some (handleSendMessage_begin now stamp (VStr (trim inputValue)))
     /\ snd (handleSendMessage_begin now stamp (VStr (trim inputValue)))
        = ApiService.POST "/chat" (VObj [("message", VStr (trim inputValue))]))
  /\ (ChatInterface.submit now stamp s inputValue = None
      <-> appStatus s = processing \/ trim inputValue = EmptyString).
Proof.
  unfold ChatInterface.submit, ChatInterface.handleSubmit, isLoading.
  split; [|split; [|split]].
  - intros ->. simpl. now rewrite andb_false_r.
  - intros Hp Hne. rewrite bool_decide_eq_false_2 by assumption.
    destruct (trim inputValue); [contradiction|]. split; reflexivity.
  - destruct (trim inputValue) eqn:E; simpl; [intros _; now right|].
    destruct (bool_decide_reflect (appStatus s = processing)); simpl;
      [intros _; now left|discriminate].
  - intros [Hp|He].
    + rewrite Hp. simpl. now rewrite andb_false_r.
    + now rewrite He.
Qed.

Lemma form_rejects_while_processing_witness :
  ChatInterface.submit 7 7
    {| dataPath := "campaigns.csv"; isDataLoaded := true;
       appStatus := processing; messages := [welcome 0] |}
    "Which campaign had the most impressions?" = None
  /\ ChatInterface.submit 7 7
       {| dataPath := "campaigns.csv"; isDataLoaded := true;
          appStatus := connected; messages := [welcome 0] |}
       "  List all campaign names " 
     = Some (handleSendMessage_begin 7 7 (VStr "List all campaign names")).
Proof.
  split.
  - destruct (form_rejects_while_processing 7 7
                {| dataPath := "campaigns.csv"; isDataLoaded := true;
                   appStatus := processing; messages := [welcome 0] |}
                "Which campaign had the most impressions?") as (Hrej & _).
    apply Hrej. reflexivity.
  - destruct (form_rejects_while_processing 7 7
                {| dataPath := "campaigns.csv"; isDataLoaded := true;
                   appStatus := connected; messages := [welcome 0] |}
                "  List all campaign names ") as (_ & Hacc & _).
    apply Hacc.
    + simpl. discriminate.
    + vm_compute. discriminate.
Defined.

(** C5: every append makes the log one message longer and keeps what was
    there, but ids are clock readings ([Date.now()] for a user message,
    [Date.now() + 1] for the reply) and collide: in the session
    [Examples.quick_follow_up] the reply and the next user message share an
    id, although the ids serve as React keys of the bubbles. *)
Theorem message_ids_collide :
  (forall s m,
     List.length (messages (apply s (AppendMessage m)))
     = S (List.length (messages s))
     /\ messages (apply s (AppendMessage m)) = (messages s ++ [m])%list)
  /\ (forall s us,
        List.length (messages (commit s us))
        = (List.length (messages s) + List.length (appended us))%nat)
  /\ (forall s evs, exists added, messages (run s evs) = (messages s ++ added)%list)
  /\ Spec.ids (run (initial 1700000000000) Examples.quick_follow_up)
     = [1; 1700000001000; 1700000003005; 1700000003005]
  /\ ~ NoDup (Spec.ids (run (initial 1700000000000) Examples.quick_follow_up)).
Proof.
  split; [|split; [|split; [|split]]].
  - intros s m. split; [|reflexivity].
    simpl. rewrite length_app. simpl. lia.
  - intros s us. rewrite messages_commit, length_app. reflexivity.
  - intros s evs. eexists. apply messages_run.
  - reflexivity.
  - intros H. vm_compute in H.
    apply NoDup_cons, proj2, NoDup_cons, proj2, NoDup_cons, proj1 in H.
    apply H. now left.
Qed.

(** C6: every operation writes the status once when it starts, entering
    its busy state, and once when it completes, leaving it: a health check
    goes from connecting to connected or, on failure, disconnected; a data
    upload from loading, and a chat turn from processing, to connected or,
    on failure, error.  An operation fails when its call is rejected or,
    for a chat turn, when no message can be built from the reply.  After
    any completion, whatever ran before it, the status is not a busy
    state. *)
Theorem busy_state_is_left (op : operation) (now stamp now' stamp' : Z)
  (r : completion value) (s : AppState) (before : list event) :
  status_writes (begin_updates op now stamp) = [busy_state op]
  /\ appStatus (step s (Begin op now stamp)) = busy_state op
  /\ busy (busy_state op) = true
  /\ busy_state op = match op with
                     | HealthCheck => connecting
                     | DataUpload _ => loading
                     | ChatTurn _ => processing
                     end
  /\ succeeded op r
     = match r, op with
       | Throw _, _ => false
       | Normal response, ChatTurn _ => negb (nullish response)
       | Normal _, _ => true
       end
  /\ status_writes (settle_updates op now' stamp' r)
     = [exit_state op (succeeded op r)]
  /\ appStatus (step s (Settle op now' stamp' r))
     = exit_state op (succeeded op r)
  /\ exit_state op (succeeded op r)
     = (if succeeded op r then connected
        else match op with HealthCheck => disconnected | _ => error end)
  /\ busy (exit_state op (succeeded op r)) = false
  /\ busy (appStatus (run s (before ++ [Settle op now' stamp' r])%list)) = false.
Proof.
  assert (Hexit : appStatus (step s (Settle op now' stamp' r))
                  = exit_state op (succeeded op r)).
  { unfold step. simpl. now rewrite appStatus_commit, settle_writes. }
  assert (Hnb : busy (exit_state op (succeeded op r)) = false)
    by now destruct op, (succeeded _ r).
  repeat split; try assumption.
  - now destruct op.
  - now destruct op.
  - now destruct op.
  - now destruct op, r.
  - apply settle_writes.
  - now destruct op, (succeeded _ r).
  - unfold run. rewrite fold_left_app. simpl.
    unfold step at 1. simpl. now rewrite appStatus_commit, settle_writes.
Qed.

End session.

(* ===================================================================== *)
(** * Quick actions (App.handleQuickAction)                               *)
(* ===================================================================== *)

Section quick_actions.

Import App.

Lemma actionMap_prompt_nonempty id prompt :
  actionMap !! id = Some prompt -> truthy (VStr prompt) = true.
Proof.
  unfold actionMap. intros H. apply elem_of_list_to_map_2 in H.
  repeat (apply elem_of_cons in H; destruct H as [H|H];
          [injection H as -> ->; reflexivity|]).
  now apply elem_of_nil in H.
Qed.

Lemma handleQuickAction_string id :
  handleQuickAction_message (VStr id)
  = Normal (or_else (actionMap_get id) (VStr id)).
Proof. reflexivity. Qed.

(** An identifier in the mapping resolves to its prompt. *)
Lemma handleQuickAction_mapped id prompt :
  actionMap !! id = Some prompt ->
  handleQuickAction_message (VStr id) = Normal (VStr prompt).
Proof.
  intros H. rewrite handleQuickAction_string. unfold actionMap_get.
  rewrite H. unfold or_else. now rewrite (actionMap_prompt_nonempty id prompt H).
Qed.

(** An identifier that is neither in the mapping nor the name of a member
    of [Object.prototype] passes through. *)
Lemma handleQuickAction_unmapped id :
  actionMap !! id = None ->
  existsb (String.eqb id) objectPrototype = false ->
  handleQuickAction_message (VStr id) = Normal (VStr id).
Proof.
  intros H Hp. rewrite handleQuickAction_string.
  unfold actionMap_get, inherited. now rewrite H, Hp.
Qed.

(** Resolution of a string identifier never throws. *)
Lemma handleQuickAction_total id :
  exists v, handleQuickAction_message (VStr id) = Normal v.
Proof. eexists. reflexivity. Qed.

(** C8: the identifiers of the mapping resolve to their prompts and an
    unknown identifier such as "unknown_xyz" passes through, but the lookup
    [actionMap[action]] also finds what the object literal inherits: for
    "constructor", and every other member name of [Object.prototype], none
    of them in the mapping, the result is the inherited built-in instead of
    the identifier. *)
Theorem inherited_names_do_not_pass_through :
  handleQuickAction_message (VStr "validate_data")
  = Normal (VStr "Please validate my data quality")
  /\ handleQuickAction_message (VStr "unknown_xyz") = Normal (VStr "unknown_xyz")
  /\ actionMap !! "constructor" = None
  /\ handleQuickAction_message (VStr "constructor") = Normal (VNative "constructor")
  /\ handleQuickAction_message (VStr "constructor") <> Normal (VStr "constructor")
  /\ Forall (fun name =>
               actionMap !! name = None
               /\ handleQuickAction_message (VStr name) = Normal (VNative name))
            objectPrototype.
Proof.
  split; [reflexivity|]. split; [reflexivity|]. split; [reflexivity|].
  split; [reflexivity|]. split; [discriminate|].
  unfold objectPrototype. repeat constructor.
Qed.

End quick_actions.

(* ===================================================================== *)
(** * Rendering of artifacts (MessageBubble, DataChart)                   *)
(* ===================================================================== *)

Section rendering.

Import MessageBubble Spec.

Lemma is_string_true lit v : is_string lit v = true <-> v = VStr lit.
Proof.
  destruct v; simpl; try (split; [discriminate|congruence]).
  rewrite String.eqb_eq. split; congruence.
Qed.

Lemma is_button_not_nullish c : is_button c = true -> nullish c = false.
Proof. unfold is_button, get_opt. now destruct (nullish c). Qed.

Lemma is_chart_not_nullish c : is_chart c = true -> nullish c = false.
Proof. unfold is_chart, get_opt. now destruct (nullish c). Qed.

Lemma isButton_spec c :
  nullish c = false ->
  exists r, isButton c = Normal r /\ truthy r = is_button c.
Proof.
  intros H. unfold isButton. rewrite (get_not_nullish _ _ H).
  eexists. split; reflexivity.
Qed.

Lemma stripButton_spec c :
  nullish c = false ->
  stripButton c = Normal (ActionButton (button_props (VStr "small") c)).
Proof.
  intros H. unfold stripButton. now rewrite !(get_not_nullish _ _ H).
Qed.

(** A button artifact is rendered as a button; any other artifact is
    rendered as something else, or not at all. *)
Lemma renderComponent_spec c :
  nullish c = false ->
  exists e, renderComponent c = Normal e
    /\ buttons_of [e]
       = if is_button c then [button_props VUndefined c] else [].
Proof.
  intros H. unfold renderComponent, is_button.
  rewrite !(get_not_nullish _ _ H). simpl.
  destruct (is_string "table" (get_opt c "type")) eqn:Et.
  { apply is_string_true in Et. rewrite Et. eexists. split; reflexivity. }
  destruct (is_string "chart" (get_opt c "type")) eqn:Ec.
  { apply is_string_true in Ec. rewrite Ec. eexists. split; reflexivity. }
  destruct (is_string "button" (get_opt c "type")); eexists; split; reflexivity.
Qed.

Lemma buttons_of_cons e shown :
  buttons_of (e :: shown) = (buttons_of [e] ++ buttons_of shown)%list.
Proof. unfold buttons_of. simpl. now destruct e as [[| |]|]. Qed.

(** The inline rendering keeps one entry per component, and its buttons are
    the button artifacts in component order. *)
Lemma render_all cs :
  forallb (fun c => negb (nullish c)) cs = true ->
  exists shown,
    map_elems renderComponent cs = Normal shown
    /\ List.length shown = List.length cs
    /\ buttons_of shown
       = map (button_props VUndefined) (List.filter is_button cs).
Proof.
  induction cs as [|c cs IH]; simpl.
  - intros _. exists []. repeat split.
  - intros [Hc Hcs]%andb_prop. apply negb_true_iff in Hc.
    destruct (renderComponent_spec c Hc) as (e & He & Hb).
    destruct (IH Hcs) as (shown & Hs & Hlen & Hbs).
    exists (e :: shown). split; [|split].
    + rewrite He. simpl. now rewrite Hs.
    + simpl. now rewrite Hlen.
    + rewrite buttons_of_cons, Hb, Hbs. now destruct (is_button c).
Qed.

(** A button artifact is rendered in place as a button with its fields. *)
Lemma renderComponent_button c :
  is_button c = true ->
  renderComponent c = Normal (Some (ActionButton (button_props VUndefined c))).
Proof.
  intros Hb. pose proof (is_button_not_nullish c Hb) as Hn.
  unfold is_button in Hb. apply is_string_true in Hb.
  unfold renderComponent. rewrite !(get_not_nullish _ _ Hn), Hb. reflexivity.
Qed.

(** C9, as stated, does not hold: the identifier of a button is read from
    its field [action], not from [actionId].  A button artifact shaped as
    the data model has it, with [actionId] "get_insights", is rendered both
    in place and in the strip, but without caption and identifier, and
    clicking it sends the chat turn [undefined] and not the prompt mapped
    to "get_insights". *)
Lemma actionId_is_not_read :
  let message := Examples.agent_message (VArr [Examples.spec_button]) (VArr []) in
  let inline := {| text := VUndefined; onClick := VUndefined;
                   style := VUndefined; size := VUndefined |} in
  let small := {| text := VUndefined; onClick := VUndefined;
                  style := VUndefined; size := VStr "small" |} in
  let now := 1700000005000 in
  is_button Examples.spec_button = true
  /\ get_opt Examples.spec_button "actionId" = VStr "get_insights"
  /\ MessageBubbleComponent message
     = Normal {| statusIndicator := Some (VStr "success");
                 componentsContainer := Some [Some (ActionButton inline)];
                 buttonGroup := Some [ActionButton small] |}
  /\ click now now inline
     = Normal (Some (App.handleSendMessage_begin now now VUndefined))
  /\ click now now small
     = Normal (Some (App.handleSendMessage_begin now now VUndefined))
  /\ snd (App.handleSendMessage_begin now now VUndefined)
     = ApiService.POST "/chat" (VObj [("message", VUndefined)])
  /\ click now now inline
     <> Normal (Some (App.handleSendMessage_begin now now
                        (VStr "Please give me insights about my campaign data"))).
Proof. cbv zeta. repeat split. discriminate. Qed.

(** C9, amended: for every message whose components are an array of
    entries none of which is [null] or [undefined], N >= 1 of them button
    artifacts, and whose tool results are absent or well formed, the bubble
    renders one entry per component, each button artifact at the position
    of its component, so the N buttons stand in component order among the
    other artifacts, and the same N buttons again, in that order and small,
    in the strip below; clicking a button whose field [action] is
    "get_insights", in either place, sends the chat turn "Please give me
    insights about my campaign data". *)
Theorem buttons_inline_and_in_strip (message : App.Message) (cs : list value)
  (N : nat) :
  App.components message = VArr cs ->
  forallb (fun c => negb (nullish c)) cs = true ->
  well_formed_results (App.toolResults message) = true ->
  List.length (List.filter is_button cs) = N ->
  (1 <= N)%nat ->
  exists indicator shown strip,
    MessageBubbleComponent message
    = Normal {| statusIndicator := indicator;
                componentsContainer := Some shown;
                buttonGroup := Some strip |}
    /\ List.length shown = List.length cs
    /\ buttons_of shown = map (button_props VUndefined) (List.filter is_button cs)
    /\ strip = map (fun c => ActionButton (button_props (VStr "small") c))
                   (List.filter is_button cs)
    /\ List.length (buttons_of shown) = N
    /\ List.length strip = N
    /\ (forall p now stamp,
         (In p (buttons_of shown) \/ In (ActionButton p) strip) ->
         onClick p = VStr "get_insights" ->
         click now stamp p
         = Normal (Some (App.handleSendMessage_begin now stamp
                           (VStr "Please give me insights about my campaign data")))
         /\ snd (App.handleSendMessage_begin now stamp
                   (VStr "Please give me insights about my campaign data"))
            = ApiService.POST "/chat"
                (VObj [("message",
                        VStr "Please give me insights about my campaign data")]))
    /\ (forall i c, nth_error cs i = Some c ->
         exists e,
           nth_error shown i = Some e
           /\ renderComponent c = Normal e
           /\ (is_button c = true ->
               e = Some (ActionButton (button_props VUndefined c)))
           /\ (is_button c = false -> forall p, e <> Some (ActionButton p)))
    /\ (forall c, In c cs -> is_button c = true ->
         get_opt c "action" = VStr "get_insights" ->
         In (button_props VUndefined c) (buttons_of shown)
         /\ In (ActionButton (button_props (VStr "small") c)) strip
         /\ onClick (button_props VUndefined c) = VStr "get_insights"
         /\ onClick (button_props (VStr "small") c) = VStr "get_insights").
Proof.
  intros Hcs Hnn Hwf HN Hpos.
  destruct (getMessageStatus_total message Hwf) as (st & Hst).
  destruct (render_all cs Hnn) as (shown & Hshown & Hlen & Hbs).
  assert (Hfilter : filter_elems isButton cs = Normal (List.filter is_button cs)).
  { apply filter_elems_filter. apply List.Forall_forall. intros c Hc.
    rewrite forallb_forall in Hnn. apply isButton_spec, negb_true_iff, Hnn, Hc. }
  assert (Hstrip : map_elems stripButton (List.filter is_button cs)
                   = Normal (map (fun c => ActionButton (button_props (VStr "small") c))
                               (List.filter is_button cs))).
  { apply map_elems_map. apply List.Forall_forall. intros c Hc.
    apply filter_In in Hc as [_ Hc]. apply stripButton_spec, is_button_not_nullish, Hc. }
  assert (Hcs_pos : (0 <? Z.of_nat (List.length cs))%Z = true).
  { apply Z.ltb_lt. pose proof (filter_length_le is_button cs). lia. }
  assert (Hb_pos : (0 <? Z.of_nat (List.length (List.filter is_button cs)))%Z = true).
  { apply Z.ltb_lt. lia. }
  exists (if truthy st then Some st else None), shown,
    (map (fun c => ActionButton (button_props (VStr "small") c))
       (List.filter is_button cs)).
  split; [|split; [|split; [|split; [|split; [|split; [|split; [|split]]]]]]].
  - unfold MessageBubbleComponent. rewrite Hst, Hcs. simpl.
    rewrite Hcs_pos, Hshown. simpl. rewrite Hfilter. simpl.
    rewrite Hb_pos, Hstrip. reflexivity.
  - exact Hlen.
  - exact Hbs.
  - reflexivity.
  - now rewrite Hbs, length_map.
  - now rewrite length_map.
  - intros p now stamp _ Hp. split; [|reflexivity].
    unfold click, handleClick, App.handleQuickAction_begin. simpl. rewrite Hp.
    now rewrite (handleQuickAction_mapped "get_insights"
                   "Please give me insights about my campaign data").
  - intros i c Hi.
    destruct (map_elems_lookup _ _ _ Hshown) as [_ Hnth].
    destruct (Hnth i c Hi) as (e & He & Hren).
    assert (Hn : nullish c = false).
    { rewrite forallb_forall in Hnn. apply negb_true_iff, Hnn.
      eapply nth_error_In; eassumption. }
    exists e. split; [exact He|]. split; [exact Hren|]. split.
    + intros Hb. rewrite (renderComponent_button c Hb) in Hren.
      now injection Hren as <-.
    + intros Hb p ->.
      destruct (renderComponent_spec c Hn) as (e' & He' & Hbut).
      rewrite Hren in He'. injection He' as <-.
      rewrite Hb in Hbut. discriminate Hbut.
  - intros c Hin Hb Ha. repeat split.
    + rewrite Hbs. apply in_map, filter_In. now split.
    + apply (in_map (fun c => ActionButton (button_props (VStr "small") c))),
        filter_In. now split.
    + exact Ha.
    + exact Ha.
Qed.

Lemma buttons_inline_and_in_strip_witness :
  exists indicator shown strip,
    MessageBubbleComponent
      (Examples.agent_message (VArr Examples.reply_components) (VArr []))
    = Normal {| statusIndicator := indicator;
                componentsContainer := Some shown;
                buttonGroup := Some strip |}
    /\ List.length (buttons_of shown) = 2%nat
    /\ List.length strip = 2%nat.
Proof.
  destruct (buttons_inline_and_in_strip
              (Examples.agent_message (VArr Examples.reply_components) (VArr []))
              Examples.reply_components 2)
    as (indicator & shown & strip & Hrender & _ & _ & _ & Hin & Hst & _).
  - reflexivity.
  - reflexivity.
  - reflexivity.
  - reflexivity.
  - lia.
  - exists indicator, shown, strip. repeat split; assumption.
Defined.

(** C10, as stated, does not hold: a chart artifact of kind "bar" whose
    series are empty is not displayed as a bar chart; the placeholder for
    missing data is shown instead. *)
Lemma chart_without_data_is_no_bar_chart :
  is_chart Examples.empty_bar_chart = true
  /\ get_opt Examples.empty_bar_chart "chart_type" <> VStr "line"
  /\ display_chart Examples.empty_bar_chart
     = Normal (Some (DataChart.NoDataMessage (VStr "Clicks by campaign")))
  /\ forall title labels label data,
       display_chart Examples.empty_bar_chart
       <> Normal (Some (DataChart.Chart DataChart.Bar title labels label data)).
Proof. repeat split; discriminate. Qed.

Lemma display_chart_spec c :
  is_chart c = true ->
  display_chart c
  = Some <$> DataChart.DataChart
               (or_else (get_opt c "chart_type") (VStr "bar"))
               (get_opt c "title") (get_opt c "data").
Proof.
  intros H. pose proof (is_chart_not_nullish c H) as Hn.
  unfold is_chart in H. apply is_string_true in H.
  unfold display_chart, renderComponent.
  rewrite !(get_not_nullish _ _ Hn), H. reflexivity.
Qed.

(** The kind DataChart receives is ["line"] exactly when the artifact's
    [chart_type] is. *)
Lemma chart_kind_line v :
  is_string "line" (or_else v (VStr "bar")) = is_string "line" v.
Proof. unfold or_else. now destruct v as [| |[|]|n|[|? ?]| | |]; try destruct n. Qed.

(** C10, amended: a chart artifact that carries data (its [data] and the
    [x] and [y] in it are truthy and [x.length] is not 0) is displayed as a
    line chart when its [chart_type] is exactly the string "line", and as a
    bar chart when [chart_type] is absent or holds anything else; a chart
    artifact without data is displayed as the placeholder for missing data,
    whatever its kind. *)
Theorem chart_kind_selection (c : value) :
  is_chart c = true ->
  (has_data (get_opt c "data") = true ->
   exists component title labels label data,
     display_chart c
     = Normal (Some (DataChart.Chart component title labels label data))
     /\ (get_opt c "chart_type" = VStr "line" -> component = DataChart.Line)
     /\ (get_opt c "chart_type" <> VStr "line" -> component = DataChart.Bar))
  /\ (has_data (get_opt c "data") = false ->
     exists title, display_chart c = Normal (Some (DataChart.NoDataMessage title))).
Proof.
  intros Hc. rewrite (display_chart_spec c Hc). unfold DataChart.DataChart.
  set (kind := or_else (get_opt c "chart_type") (VStr "bar")).
  assert (Hkind : is_string "line"
                    match kind with VUndefined => VStr "bar" | _ => kind end
                  = is_string "line" (get_opt c "chart_type")).
  { subst kind. rewrite <- (chart_kind_line (get_opt c "chart_type")).
    now destruct (or_else (get_opt c "chart_type") (VStr "bar")). }
  unfold has_data. set (d := get_opt c "data").
  split; intros Hd.
  - apply andb_prop in Hd as [Hd Hlen]. apply andb_prop in Hd as [Hd Hy].
    apply andb_prop in Hd as [Hd Hx]. apply negb_true_iff in Hlen.
    rewrite Hd, Hx, Hy. simpl. rewrite Hlen, Hkind.
    do 5 eexists. split; [reflexivity|]. split.
    + intros ->. reflexivity.
    + intros Hne. destruct (is_string "line" (get_opt c "chart_type")) eqn:E;
        [|reflexivity]. apply is_string_true in E. contradiction.
  - eexists.
    destruct (truthy d); simpl in *; [|reflexivity].
    destruct (truthy (get_opt d "x")); simpl in *; [|reflexivity].
    destruct (truthy (get_opt d "y")); simpl in *; [|reflexivity].
    apply negb_false_iff in Hd. rewrite Hd. reflexivity.
Qed.

Lemma chart_kind_selection_witness :
  (exists title labels label data,
     display_chart (Examples.trend_chart (VStr "Line") Examples.trend_data)
     = Normal (Some (DataChart.Chart DataChart.Bar title labels label data)))
  /\ (exists title labels label data,
     display_chart (Examples.trend_chart (VStr "line") Examples.trend_data)
     = Normal (Some (DataChart.Chart DataChart.Line title labels label data))).
Proof.
  split.
  - destruct (chart_kind_selection
                (Examples.trend_chart (VStr "Line") Examples.trend_data))
      as [Hdata _]; [reflexivity|].
    destruct Hdata as (k & title & labels & label & data & Hshow & _ & Hbar);
      [reflexivity|].
    rewrite (Hbar ltac:(discriminate)) in Hshow.
    exists title, labels, label, data. exact Hshow.
  - destruct (chart_kind_selection
                (Examples.trend_chart (VStr "line") Examples.trend_data))
      as [Hdata _]; [reflexivity|].
    destruct Hdata as (k & title & labels & label & data & Hshow & Hline & _);
      [reflexivity|].
    rewrite (Hline eq_refl) in Hshow.
    exists title, labels, label, data. exact Hshow.
Defined.

End rendering.

(* ===================================================================== *)
(** * Further properties: the gateway and the handlers                    *)
(* ===================================================================== *)

Section gateway_and_handlers.

Import ApiService App Session Facts.

Lemma call_2xx r :
  200 <= status r -> status r < 300 -> call (Reply r) = Normal (data r).
Proof.
  intros Hlo Hhi. unfold call, axios.
  now rewrite (proj2 (Z.leb_le _ _) Hlo), (proj2 (Z.ltb_lt _ _) Hhi).
Qed.

(** X1: a gateway call returns normally exactly when the backend replied
    with a status from 200 to 299, and then returns the body untouched;
    every other end of the call is a throw. *)
Theorem call_returns_iff_2xx (t : transport) (v : value) :
  call t = Normal v
  <-> exists r, t = Reply r /\ 200 <= status r /\ status r < 300 /\ v = data r.
Proof.
  split.
  - destruct t as [r|cause|reason].
    + destruct (Z_le_gt_dec 200 (status r)) as [Hlo|Hlo];
        [destruct (Z_lt_ge_dec (status r) 300) as [Hhi|Hhi]|].
      * rewrite (call_2xx r Hlo Hhi).
        intros [= <-]. exists r. repeat split; assumption.
      * rewrite call_non_2xx by lia. now destruct (toStr _).
      * rewrite call_non_2xx by lia. now destruct (toStr _).
    + now rewrite call_no_reply.
    + unfold call. simpl. discriminate.
  - intros (r & -> & Hlo & Hhi & ->). now apply call_2xx.
Qed.

(** X2: when the backend answers a chat turn or an upload with a status
    outside 200..299 and a non-empty string [detail], that text reaches
    the user verbatim: the status becomes error and the one message
    appended is the fixed apology followed by the detail. *)
Theorem server_detail_reaches_user (r : AxiosResponse) (d : string)
  (now stamp : Z) (filePath : string) :
  (status r < 200 \/ 300 <= status r) ->
  get_opt (data r) "detail" = VStr d ->
  d <> EmptyString ->
  (status_writes (handleSendMessage_settle now stamp (call (Reply r))) = [error]
   /\ exists m,
        appended (handleSendMessage_settle now stamp (call (Reply r))) = [m]
        /\ type m = agent /\ components m = VArr []
        /\ content m
           = VStr ("Sorry, I encountered an error processing your request: " ++ d))
  /\ (status_writes (handleDataUpload_settle now stamp filePath (call (Reply r)))
      = [error]
      /\ exists m,
           appended (handleDataUpload_settle now stamp filePath (call (Reply r)))
           = [m]
           /\ type m = agent /\ components m = VArr []
           /\ content m
              = VStr ("Sorry, I couldn't load the data file. Please make sure the file path is correct and the file exists. Error: " ++ d)).
Proof.
  intros Hst Hd Hne.
  rewrite (call_non_2xx r Hst), Hd. unfold or_else.
  rewrite (truthy_string d Hne). simpl.
  split; (split; [reflexivity|]); eexists; repeat split.
Qed.

Lemma server_detail_reaches_user_witness :
  exists m,
    appended (handleSendMessage_settle 1700000000500 1700000000500
                (call (Reply {| status := 400;
                                data := VObj [("detail", VStr "No data loaded")] |})))
    = [m]
    /\ content m
       = VStr "Sorry, I encountered an error processing your request: No data loaded".
Proof.
  destruct (server_detail_reaches_user
              {| status := 400; data := VObj [("detail", VStr "No data loaded")] |}
              "No data loaded" 1700000000500 1700000000500 "a.csv")
    as ((_ & m & Hm & _ & _ & Hc) & _).
  - simpl. lia.
  - reflexivity.
  - discriminate.
  - exists m. split; assumption.
Defined.


(** X3: a chat call fulfilled with a body that is not [null] always ends in
    status connected with exactly one agent message appended, whose content
    is the body's [message] and whose [components] and [toolResults] are
    the body's [components] and [tool_results] when those are truthy (an
    array as sent, elements and order untouched) and the empty array
    otherwise. *)
Theorem reply_is_logged_as_sent (r : AxiosResponse) (now stamp : Z) :
  200 <= status r -> status r < 300 ->
  nullish (data r) = false ->
  exists m,
    handleSendMessage_settle now stamp (call (Reply r))
    = [AppendMessage m; SetAppStatus connected]
    /\ id m = now + 1 /\ type m = agent /\ timestamp m = stamp
    /\ content m = get_opt (data r) "message"
    /\ (forall cs, get_opt (data r) "components" = VArr cs -> components m = VArr cs)
    /\ (forall trs, get_opt (data r) "tool_results" = VArr trs ->
        toolResults m = VArr trs)
    /\ (truthy (get_opt (data r) "components") = false -> components m = VArr [])
    /\ (truthy (get_opt (data r) "tool_results") = false -> toolResults m = VArr []).
Proof.
  intros Hlo Hhi Hn.
  rewrite (call_2xx r Hlo Hhi). unfold handleSendMessage_settle, agentMessage. simpl.
  rewrite !(get_not_nullish _ _ Hn). simpl.
  eexists. split; [reflexivity|]. simpl. repeat split.
  - intros cs ->. reflexivity.
  - intros trs ->. reflexivity.
  - unfold or_else. now intros ->.
  - unfold or_else. now intros ->.
Qed.

Lemma reply_is_logged_as_sent_witness :
  exists m,
    handleSendMessage_settle 1700000002000 1700000002001
      (call (Reply {| status := 200;
                      data := VObj [("message", VStr "Found 2 anomalies.");
                                    ("components", VArr Examples.reply_components)] |}))
    = [AppendMessage m; SetAppStatus connected]
    /\ components m = VArr Examples.reply_components
    /\ toolResults m = VArr [].
Proof.
  destruct (reply_is_logged_as_sent
              {| status := 200;
                 data := VObj [("message", VStr "Found 2 anomalies.");
                               ("components", VArr Examples.reply_components)] |}
              1700000002000 1700000002001)
    as (m & Hm & _ & _ & _ & _ & Hc & _ & _ & Ht).
  - simpl. lia.
  - simpl. lia.
  - reflexivity.
  - exists m. split; [exact Hm|]. split.
    + apply Hc. reflexivity.
    + apply Ht. reflexivity.
Defined.

(** X4: a chat call fulfilled with the body [null] is treated as a
    failure: building the agent message throws, the status becomes error
    and the user is shown the engine's message about reading [message] of
    [null] behind the fixed apology. *)
Theorem null_body_is_reported_as_error (r : AxiosResponse) (now stamp : Z) :
  200 <= status r -> status r < 300 ->
  data r = VNull ->
  status_writes (handleSendMessage_settle now stamp (call (Reply r))) = [error]
  /\ exists m,
       appended (handleSendMessage_settle now stamp (call (Reply r))) = [m]
       /\ type m = agent
       /\ content m
          = VStr ("Sorry, I encountered an error processing your request: "
                  ++ exn_message (cannot_read VNull "message")).
Proof.
  intros Hlo Hhi Hd.
  rewrite (call_2xx r Hlo Hhi), Hd. split; [reflexivity|]. eexists. repeat split.
Qed.

Lemma null_body_is_reported_as_error_witness :
  status_writes
    (handleSendMessage_settle 5 5 (call (Reply {| status := 200; data := VNull |})))
  = [error].
Proof.
  apply (null_body_is_reported_as_error {| status := 200; data := VNull |} 5 5);
    [simpl; lia | simpl; lia | reflexivity].
Defined.

End gateway_and_handlers.

(* ===================================================================== *)
(** * Further properties: sessions                                        *)
(* ===================================================================== *)

Section sessions.

Import ApiService App Session Facts.

Lemma last_cons_head {A} (x : A) l d : List.last (x :: l) d = List.last l x.
Proof.
  revert x. induction l as [|y l IH]; intros x; [reflexivity|].
  change (List.last (y :: l) d = List.last (y :: l) x). apply last_cons_default.
Qed.

(** What one turn of the event loop does to the data source. *)
Lemma step_data s ev :
  isDataLoaded (step s ev)
  = match uploaded ev with Some _ => true | None => isDataLoaded s end
  /\ dataPath (step s ev) = default (dataPath s) (uploaded ev).
Proof.
  unfold step.
  destruct ev as [[|filePath|message] now stamp
                 |[|filePath|message] now stamp [response|e]];
    try (split; reflexivity);
    unfold updates_of, settle_updates, handleSendMessage_settle;
    destruct (_ ≫= _); split; reflexivity.
Qed.

Lemma run_data (s : AppState) (evs : list event) :
  isDataLoaded (run s evs)
  = isDataLoaded s || (0 <? List.length (omap uploaded evs))%nat
  /\ dataPath (run s evs) = List.last (omap uploaded evs) (dataPath s).
Proof.
  revert s. induction evs as [|ev evs IH]; intros s.
  - simpl. now rewrite orb_false_r.
  - change (run s (ev :: evs)) with (run (step s ev) evs).
    destruct (IH (step s ev)) as [-> ->].
    destruct (step_data s ev) as [-> ->].
    change (omap uploaded (ev :: evs))
      with (match uploaded ev with
            | Some p => p :: omap uploaded evs
            | None => omap uploaded evs
            end).
    destruct (uploaded ev) as [p|]; simpl.
    + split; [now rewrite orb_true_r|].
      symmetry. apply (last_cons_head p).
    + split; reflexivity.
Qed.

(** X5: only a successful upload touches the data source.  Once data is
    loaded it stays loaded for the rest of the session, whatever fails
    later, and the stored path is that of the last upload that succeeded. *)
Theorem data_source_follows_successful_uploads (s : AppState) (evs : list event) :
  isDataLoaded (run s evs)
  = isDataLoaded s || (0 <? List.length (omap uploaded evs))%nat
  /\ dataPath (run s evs) = List.last (omap uploaded evs) (dataPath s).
Proof. exact (run_data s evs). Qed.

(** What one turn of the event loop appends. *)
Lemma step_appended ev :
  List.length (appended (updates_of ev)) = (if appends ev then 1 else 0)%nat
  /\ user_contents (appended (updates_of ev))
     = match submitted ev with Some m => [m] | None => [] end.
Proof.
  destruct ev as [[|filePath|message] now stamp
                 |[|filePath|message] now stamp [response|e]];
    try (split; reflexivity).
  unfold updates_of, settle_updates, handleSendMessage_settle, agentMessage, get.
  simpl. destruct (nullish response); split; reflexivity.
Qed.

Lemma user_contents_app ms ms' :
  user_contents (ms ++ ms')%list = (user_contents ms ++ user_contents ms')%list.
Proof. unfold user_contents. now rewrite List.filter_app, fmap_app. Qed.

Lemma run_length (s : AppState) (evs : list event) :
  List.length (messages (run s evs))
  = (List.length (messages s) + List.length (List.filter appends evs))%nat.
Proof.
  revert s. induction evs as [|ev evs IH]; intros s; [simpl; lia|].
  change (run s (ev :: evs)) with (run (step s ev) evs). rewrite IH.
  unfold step. rewrite messages_commit, length_app.
  rewrite (proj1 (step_appended ev)). simpl.
  destruct (appends ev); simpl; lia.
Qed.

(** X6: the log grows by exactly one message for every chat turn sent,
    every chat turn completed and every upload completed, successful or
    not, and by nothing else; health checks and the start of an upload
    append nothing, and the messages already in the log stay at its
    front. *)
Theorem log_length_counts_turns (s : AppState) (evs : list event) :
  List.length (messages (run s evs))
  = (List.length (messages s) + List.length (List.filter appends evs))%nat
  /\ exists added, messages (run s evs) = (messages s ++ added)%list.
Proof.
  split; [exact (run_length s evs)|].
  eexists. apply messages_run.
Qed.

(** X7: the user's messages stand in the log in the order they were
    submitted, with the content exactly as submitted; nothing else in the
    log has the role user. *)
Theorem user_messages_in_submission_order (s : AppState) (evs : list event) :
  user_contents (messages (run s evs))
  = (user_contents (messages s) ++ omap submitted evs)%list.
Proof.
  revert s. induction evs as [|ev evs IH]; intros s.
  - simpl. now rewrite app_nil_r.
  - change (run s (ev :: evs)) with (run (step s ev) evs). rewrite IH.
    unfold step. rewrite messages_commit, user_contents_app.
    rewrite (proj2 (step_appended ev)), <- app_assoc. f_equal.
    change (omap submitted (ev :: evs))
      with (match submitted ev with
            | Some m => m :: omap submitted evs
            | None => omap submitted evs
            end).
    now destruct (submitted ev).
Qed.

End sessions.

(* ===================================================================== *)
(** * Further properties: malformed and unknown artifacts                 *)
(* ===================================================================== *)

Section malformed_artifacts.

Import MessageBubble Spec Facts.

(** [some] does not look past the first element that answers truthy. *)
Lemma some_elems_prefix (cb : value -> completion value) (f : value -> bool)
  pre rest :
  Forall (fun x => exists r, cb x = Normal r /\ truthy r = f x) pre ->
  some_elems cb (pre ++ rest)%list
  = if existsb f pre then Normal true else some_elems cb rest.
Proof.
  induction 1 as [|x pre (r & Hcb & Hr) _ IH]; [reflexivity|].
  simpl. rewrite Hcb. simpl. rewrite Hr. now destruct (f x).
Qed.

Lemma map_elems_throw {A} (cb : value -> completion A) pre bad post e :
  Forall (fun x => exists y, cb x = Normal y) pre ->
  cb bad = Throw e ->
  map_elems cb (pre ++ bad :: post)%list = Throw e.
Proof.
  intros Hpre Hbad. induction Hpre as [|x pre (y & Hy) _ IH]; simpl.
  - now rewrite Hbad.
  - rewrite Hy. simpl. now rewrite IH.
Qed.

(** X8: a [null] entry among the tool results makes the status derivation
    throw, unless both an error result and a result with a warning stand
    before it: the two scans stop at their first hit, so only then is the
    [null] never looked at, and the status is error.  With malformed
    entries the outcome therefore depends on the order of the list. *)
Theorem null_tool_result_throws_unless_masked (message : App.Message)
  (pre post : list value) (bad : value) :
  App.toolResults message = VArr (pre ++ bad :: post)%list ->
  forallb well_formed pre = true ->
  nullish bad = true ->
  getMessageStatus message
  = if existsb has_error pre && existsb has_warning pre
    then Normal (VStr "error")
    else Throw (cannot_read bad "result").
Proof.
  intros Htr Hwf Hbad. rewrite forallb_forall in Hwf.
  unfold getMessageStatus. rewrite Htr. simpl.
  rewrite (some_elems_prefix isErrorResult has_error).
  2:{ apply List.Forall_forall. intros x Hx. eexists. split.
      - apply isErrorResult_spec, well_formed_not_nullish, Hwf, Hx.
      - reflexivity. }
  rewrite (some_elems_prefix hasWarningIssue has_warning).
  2:{ apply List.Forall_forall. intros x Hx. apply hasWarningIssue_spec, Hwf, Hx. }
  simpl. unfold isErrorResult, hasWarningIssue.
  rewrite !(get_nullish _ _ Hbad). simpl.
  now destruct (existsb has_error pre), (existsb has_warning pre).
Qed.

Lemma null_tool_result_throws_unless_masked_witness :
  getMessageStatus
    (Examples.agent_message (VArr [])
       (VArr [Examples.failed_tool; Examples.nested_warning; VNull]))
  = Normal (VStr "error")
  /\ getMessageStatus
       (Examples.agent_message (VArr [])
          (VArr [Examples.failed_tool; VNull; Examples.nested_warning]))
     = Throw (cannot_read VNull "result").
Proof.
  split.
  - apply (null_tool_result_throws_unless_masked _
             [Examples.failed_tool; Examples.nested_warning] [] VNull);
      reflexivity.
  - apply (null_tool_result_throws_unless_masked _
             [Examples.failed_tool] [Examples.nested_warning] VNull);
      reflexivity.
Defined.

(** X9: one [null] among the components of a message makes the whole
    bubble throw when it renders: nothing of the message is shown, the
    components before the [null] included. *)
Theorem null_component_breaks_bubble (message : App.Message)
  (pre post : list value) (bad : value) :
  App.components message = VArr (pre ++ bad :: post)%list ->
  forallb not_nullish pre = true ->
  nullish bad = true ->
  well_formed_results (App.toolResults message) = true ->
  MessageBubbleComponent message = Throw (cannot_read bad "type").
Proof.
  intros Hcs Hpre Hbad Hwf.
  destruct (getMessageStatus_total message Hwf) as (st & Hst).
  unfold MessageBubbleComponent. rewrite Hst, Hcs. simpl.
  assert (Hlen : (0 <? Z.of_nat (List.length (pre ++ bad :: post)))%Z = true).
  { apply Z.ltb_lt. rewrite length_app. simpl. lia. }
  rewrite Hlen.
  rewrite (map_elems_throw renderComponent pre bad post (cannot_read bad "type")).
  - reflexivity.
  - apply List.Forall_forall. intros c Hc. rewrite forallb_forall in Hpre.
    apply Hpre, negb_true_iff in Hc.
    destruct (renderComponent_spec c Hc) as (e & He & _). now exists e.
  - unfold renderComponent. now rewrite (get_nullish bad "type" Hbad).
Qed.

Lemma null_component_breaks_bubble_witness :
  MessageBubbleComponent
    (Examples.agent_message
       (VArr (Examples.reply_components ++ [VNull])) (VArr []))
  = Throw (cannot_read VNull "type").
Proof.
  apply (null_component_breaks_bubble _ Examples.reply_components [] VNull);
    reflexivity.
Defined.

Lemma renderComponent_unrecognised c :
  nullish c = false -> recognised c = false ->
  renderComponent c = Normal None.
Proof.
  intros Hn Hr. unfold recognised in Hr.
  apply orb_false_iff in Hr as [Hr Hb]. apply orb_false_iff in Hr as [Ht Hc].
  unfold renderComponent. rewrite !(get_not_nullish _ _ Hn). simpl.
  now rewrite Ht, Hc, Hb.
Qed.

(** X10: for a message whose components are all objects, the container of
    rendered components is shown exactly when the list is not empty and
    has one slot per component, the slot of a component of unrecognised
    type being empty; the strip of buttons is shown exactly when some
    component is a button.  Unknown artifacts are thus dropped silently,
    without disturbing the others. *)
Theorem unknown_artifacts_leave_empty_slots (message : App.Message)
  (cs : list value) :
  App.components message = VArr cs ->
  forallb not_nullish cs = true ->
  well_formed_results (App.toolResults message) = true ->
  exists v,
    MessageBubbleComponent message = Normal v
    /\ (componentsContainer v = None <-> cs = [])
    /\ (buttonGroup v = None <-> List.filter is_button cs = [])
    /\ (forall shown, componentsContainer v = Some shown ->
        List.length shown = List.length cs
        /\ forall i c, nth_error cs i = Some c -> recognised c = false ->
             nth_error shown i = Some None).
Proof.
  intros Hcs Hnn Hwf.
  destruct (getMessageStatus_total message Hwf) as (st & Hst).
  destruct (render_all cs Hnn) as (shown & Hshown & Hlen & _).
  assert (Hfilter : filter_elems isButton cs = Normal (List.filter is_button cs)).
  { apply filter_elems_filter. apply List.Forall_forall. intros c Hc.
    rewrite forallb_forall in Hnn. apply isButton_spec, negb_true_iff, Hnn, Hc. }
  assert (Hstrip : map_elems stripButton (List.filter is_button cs)
                   = Normal (map (fun c => ActionButton (button_props (VStr "small") c))
                               (List.filter is_button cs))).
  { apply map_elems_map. apply List.Forall_forall. intros c Hc.
    apply filter_In in Hc as [_ Hc]. apply stripButton_spec, is_button_not_nullish, Hc. }
  assert (Hslots : forall i c, nth_error cs i = Some c -> recognised c = false ->
                     nth_error shown i = Some None).
  { intros i x Hx Hr.
    destruct (map_elems_lookup _ _ _ Hshown) as [_ Hnth].
    destruct (Hnth i x Hx) as (y & Hy & Hren).
    rewrite renderComponent_unrecognised in Hren; [|  |exact Hr].
    - now injection Hren as <-.
    - rewrite forallb_forall in Hnn. apply negb_true_iff, Hnn.
      eapply nth_error_In; eassumption. }
  unfold MessageBubbleComponent. rewrite Hst, Hcs. cbn [truthy].
  cbv beta iota zeta.
  rewrite Hfilter, Hshown.
  cbn [mbind completion_bind fmap completion_fmap].
  destruct cs as [|c cs].
  - eexists. split; [reflexivity|]. cbn.
    split; [split; reflexivity|]. split; [split; reflexivity|].
    intros shown' H. discriminate H.
  - change (0 <? Z.of_nat (List.length (c :: cs)))%Z with true.
    destruct (List.filter is_button (c :: cs)) as [|b bs] eqn:Hb.
    + eexists. split; [reflexivity|]. cbn.
      split; [split; discriminate|]. split; [split; reflexivity|].
      intros shown' [= <-]. split; [exact Hlen|exact Hslots].
    + change (0 <? Z.of_nat (List.length (b :: bs)))%Z with true.
      rewrite Hstrip.
      eexists. split; [reflexivity|]. cbn.
      split; [split; discriminate|]. split; [split; discriminate|].
      intros shown' [= <-]. split; [exact Hlen|exact Hslots].
Qed.

Lemma unknown_artifacts_leave_empty_slots_witness :
  exists v,
    MessageBubbleComponent
      (Examples.agent_message (VArr [VObj [("type", VStr "gauge")]]) (VArr []))
    = Normal v
    /\ buttonGroup v = None
    /\ forall shown, componentsContainer v = Some shown ->
         nth_error shown 0 = Some None.
Proof.
  destruct (unknown_artifacts_leave_empty_slots
              (Examples.agent_message (VArr [VObj [("type", VStr "gauge")]]) (VArr []))
              [VObj [("type", VStr "gauge")]])
    as (v & Hv & _ & Hstrip & Hslots); try reflexivity.
  exists v. split; [exact Hv|]. split.
  - apply Hstrip. reflexivity.
  - intros shown Hshown. destruct (Hslots shown Hshown) as [_ Hnth].
    apply (Hnth 0%nat (VObj [("type", VStr "gauge")])); reflexivity.
Defined.

(** X11: a button artifact without an [action] still renders as a button,
    and clicking it sends a chat turn whose message is [undefined]: a user
    message with that content is appended and the chat call is issued. *)
Theorem button_without_action_sends_undefined (c : value) (now stamp : Z) :
  is_button c = true ->
  get_opt c "action" = VUndefined ->
  exists p,
    renderComponent c = Normal (Some (ActionButton p))
    /\ click now stamp p
       = Normal (Some (App.handleSendMessage_begin now stamp VUndefined))
    /\ snd (App.handleSendMessage_begin now stamp VUndefined)
       = ApiService.POST "/chat" (VObj [("message", VUndefined)])
    /\ App.content <$> App.appended (fst (App.handleSendMessage_begin now stamp VUndefined))
       = [VUndefined].
Proof.
  intros Hb Ha. pose proof (is_button_not_nullish c Hb) as Hn.
  unfold is_button in Hb. apply is_string_true in Hb.
  unfold renderComponent. rewrite !(get_not_nullish _ _ Hn), Hb, Ha. simpl.
  eexists. split; [reflexivity|]. repeat split.
Qed.

Lemma button_without_action_sends_undefined_witness :
  exists p,
    renderComponent (VObj [("type", VStr "button"); ("text", VStr "Retry")])
    = Normal (Some (ActionButton p))
    /\ click 9 9 p = Normal (Some (App.handleSendMessage_begin 9 9 VUndefined)).
Proof.
  destruct (button_without_action_sends_undefined
              (VObj [("type", VStr "button"); ("text", VStr "Retry")]) 9 9)
    as (p & Hp & Hc & _); try reflexivity.
  exists p. split; assumption.
Defined.

End malformed_artifacts.

(* ===================================================================== *)
(** * Further properties: the chat input and what is on screen            *)
(* ===================================================================== *)

Section chat_interface.

Import App Session Facts ChatView.

Lemma append_cons c s t : String c s ++ t = String c (s ++ t).
Proof. reflexivity. Qed.

Lemma append_empty s : EmptyString ++ s = s.
Proof. reflexivity. Qed.

Lemma trim_start_spec s :
  exists pre, s = pre ++ trim_start s /\ all_space pre = true
    /\ match first_char (trim_start s) with
       | Some c => is_space c = false
       | None => True
       end.
Proof.
  induction s as [|c s (pre & Hs & Hpre & Hfirst)].
  - exists EmptyString. repeat split.
  - cbn [trim_start]. destruct (is_space c) eqn:Hc.
    + exists (String c pre). rewrite append_cons, <- Hs.
      cbn [all_space]. rewrite Hc, Hpre. repeat split. exact Hfirst.
    + exists EmptyString. rewrite append_empty. repeat split. exact Hc.
Qed.

Lemma trim_end_spec s :
  exists post, s = trim_end s ++ post /\ all_space post = true
    /\ match last_char (trim_end s) with
       | Some c => is_space c = false
       | None => True
       end.
Proof.
  induction s as [|c s (post & Hs & Hpost & Hlast)].
  - exists EmptyString. repeat split.
  - cbn [trim_end]. destruct (trim_end s) as [|d t] eqn:Ht.
    + rewrite append_empty in Hs. subst s. destruct (is_space c) eqn:Hc.
      * exists (String c post). rewrite append_empty. cbn [all_space].
        rewrite Hc, Hpost. repeat split.
      * exists post. rewrite append_cons, append_empty.
        repeat split; assumption.
    + exists post. rewrite append_cons, <- Hs. repeat split; assumption.
Qed.

Lemma trim_end_first c s :
  is_space c = false -> first_char (trim_end (String c s)) = Some c.
Proof. intros Hc. simpl. destruct (trim_end s); [now rewrite Hc|reflexivity]. Qed.

Lemma trim_end_empty s : trim_end s = EmptyString -> all_space s = true.
Proof.
  intros H. destruct (trim_end_spec s) as (post & Hs & Hpost & _).
  rewrite H, append_empty in Hs. now subst s.
Qed.

Lemma trim_all_space s : all_space s = true -> trim s = EmptyString.
Proof.
  unfold trim. induction s as [|c s IH]; simpl; [reflexivity|].
  intros [Hc Hs]%andb_prop. rewrite Hc. now apply IH.
Qed.

Lemma last_char_cons c s : exists d, last_char (String c s) = Some d.
Proof.
  revert c. induction s as [|c' s IH]; intros c; [now exists c|].
  destruct (IH c') as (d & Hd). exists d. exact Hd.
Qed.

(** What [trim] keeps of a string. *)
Lemma trim_spec s :
  exists pre post,
    s = pre ++ trim s ++ post
    /\ all_space pre = true /\ all_space post = true
    /\ (trim s = EmptyString
        \/ (exists c, first_char (trim s) = Some c /\ is_space c = false)
           /\ (exists c, last_char (trim s) = Some c /\ is_space c = false)).
Proof.
  unfold trim.
  destruct (trim_start_spec s) as (pre & Hs & Hpre & Hfirst).
  destruct (trim_end_spec (trim_start s)) as (post & Ht & Hpost & Hlast).
  exists pre, post. split; [now rewrite <- Ht|]. split; [exact Hpre|].
  split; [exact Hpost|].
  destruct (trim_start s) as [|c t] eqn:E; [now left|].
  simpl in Hfirst. right. split.
  - exists c. split; [now apply trim_end_first|exact Hfirst].
  - pose proof (trim_end_first c t Hfirst) as Hne.
    destruct (trim_end (String c t)) as [|x r]; [discriminate Hne|].
    destruct (last_char_cons x r) as (d & Hd). rewrite Hd in Hlast.
    now exists d.
Qed.

(** X12: the send button is disabled exactly when [handleSubmit] would
    reject the submission; an accepted submission clears the input, a
    rejected one leaves it as it is; and a key press submits only for
    Enter without Shift, with the same outcome as the button. *)
Theorem chat_controls_agree (key : string) (shiftKey isLoading : bool)
  (inputValue : string) :
  (sendDisabled isLoading inputValue = true
   <-> fst (ChatInterface.handleSubmit isLoading inputValue) = None)
  /\ snd (ChatInterface.handleSubmit isLoading inputValue)
     = (if sendDisabled isLoading inputValue then inputValue else EmptyString)
  /\ handleKeyPress key shiftKey isLoading inputValue
     = (if bool_decide (key = "Enter") && negb shiftKey
        then ChatInterface.handleSubmit isLoading inputValue
        else (None, inputValue))
  /\ (forall t, fst (handleKeyPress key shiftKey isLoading inputValue) = Some t
       <-> key = "Enter" /\ shiftKey = false /\ isLoading = false
           /\ t = trim inputValue /\ t <> EmptyString).
Proof.
  unfold sendDisabled, ChatInterface.handleSubmit, handleKeyPress.
  assert (Hkey : String.eqb key "Enter" = bool_decide (key = "Enter")).
  { destruct (String.eqb_spec key "Enter") as [->|Hne].
    - now rewrite bool_decide_eq_true_2.
    - now rewrite bool_decide_eq_false_2. }
  rewrite Hkey.
  split; [|split; [|split]].
  - destruct (truthy (VStr (trim inputValue))), isLoading; simpl;
      split; (reflexivity || discriminate).
  - now destruct (truthy (VStr (trim inputValue))), isLoading.
  - reflexivity.
  - intros t. split.
    + intros H.
      destruct (bool_decide_reflect (key = "Enter")) as [->|Hne];
        simpl in H; [|discriminate H].
      destruct shiftKey; simpl in H; [discriminate H|].
      unfold ChatInterface.handleSubmit in H.
      destruct (trim inputValue) as [|c r] eqn:E; simpl in H; [discriminate H|].
      destruct isLoading; simpl in H; [discriminate H|].
      injection H as <-. repeat split. discriminate.
    + intros (-> & -> & -> & -> & Hne).
      rewrite bool_decide_eq_true_2 by reflexivity. simpl.
      unfold ChatInterface.handleSubmit.
      now destruct (trim inputValue).
Qed.

(** X13: what the form sends is the input without the white space around
    it: the sent text is never empty, neither starts nor ends with white
    space, and the input is that text between two runs of white space;
    an input of white space only is never sent. *)
Theorem sent_text_is_trimmed (isLoading : bool) (inputValue : string) :
  (all_space inputValue = true ->
     fst (ChatInterface.handleSubmit isLoading inputValue) = None)
  /\ (forall t,
       fst (ChatInterface.handleSubmit isLoading inputValue) = Some t ->
       exists pre post,
         inputValue = pre ++ t ++ post
         /\ all_space pre = true /\ all_space post = true
         /\ (exists c, first_char t = Some c /\ is_space c = false)
         /\ (exists c, last_char t = Some c /\ is_space c = false)).
Proof.
  unfold ChatInterface.handleSubmit. split.
  - intros H. now rewrite (trim_all_space _ H).
  - intros t Ht.
    destruct (trim_spec inputValue) as (pre & post & Hs & Hpre & Hpost & Hends).
    destruct (trim inputValue) as [|c r] eqn:E; [discriminate Ht|].
    simpl in Ht. destruct isLoading; [discriminate Ht|]. simpl in Ht.
    injection Ht as <-. exists pre, post.
    destruct Hends as [Hempty|[Hf Hl]]; [discriminate Hempty|].
    repeat split; assumption.
Qed.

Lemma sent_text_is_trimmed_witness :
  fst (ChatInterface.handleSubmit false "   ") = None
  /\ exists pre post,
       "  Show me trends  " = pre ++ "Show me trends" ++ post
       /\ all_space pre = true /\ all_space post = true.
Proof.
  destruct (sent_text_is_trimmed false "   ") as [Hblank _].
  destruct (sent_text_is_trimmed false "  Show me trends  ") as [_ Hsent].
  split.
  - apply Hblank. reflexivity.
  - destruct (Hsent "Show me trends" eq_refl)
      as (pre & post & Hs & Hpre & Hpost & _).
    exists pre, post. repeat split; assumption.
Defined.

Lemma uploaded_appends ev p : uploaded ev = Some p -> appends ev = true.
Proof.
  destruct ev as [op now stamp|[|filePath|message] now stamp [response|e]];
    try discriminate. reflexivity.
Qed.

Lemma no_appends_no_upload evs :
  List.filter appends evs = [] -> omap uploaded evs = [].
Proof.
  induction evs as [|ev evs IH]; [reflexivity|]. simpl.
  change (omap uploaded (ev :: evs))
    with (match uploaded ev with
          | Some p => p :: omap uploaded evs
          | None => omap uploaded evs
          end).
  destruct (uploaded ev) as [p|] eqn:Hu.
  - now rewrite (uploaded_appends ev p Hu).
  - destruct (appends ev); [discriminate|exact IH].
Qed.

(** X14: in a session the welcome area is on screen exactly as long as no
    turn has appended a message; until then no bubble is shown, the
    greeting of the initial log included, and once the area is gone it
    does not come back. *)
Theorem welcome_area_until_first_message (stamp : Z) (evs more : list event) :
  (welcomeArea (render (run (initial stamp) evs)) = true
   <-> List.filter appends evs = [])
  /\ (welcomeArea (render (run (initial stamp) evs)) = true ->
      bubbles (render (run (initial stamp) evs)) = [])
  /\ (welcomeArea (render (run (initial stamp) evs)) = false ->
      welcomeArea (render (run (initial stamp) (evs ++ more)%list)) = false
      /\ bubbles (render (run (initial stamp) evs))
         = messages (run (initial stamp) evs)).
Proof.
  assert (Hwel : forall l,
             welcomeArea (render (run (initial stamp) l)) = true
             <-> List.filter appends l = []).
  { intros l. unfold render. cbn [welcomeArea].
    rewrite (run_length (initial stamp) l).
    destruct (run_data (initial stamp) l) as [-> _]. simpl.
    destruct (List.filter appends l) as [|a f] eqn:Hf.
    - rewrite (no_appends_no_upload l Hf). simpl. split; reflexivity.
    - simpl. split; discriminate. }
  split; [apply Hwel|]. split.
  - unfold render. cbn [welcomeArea bubbles]. now intros ->.
  - intros Hgone. split.
    + destruct (welcomeArea (render (run (initial stamp) (evs ++ more)%list)))
        eqn:Hlater; [|reflexivity].
      apply Hwel in Hlater. rewrite List.filter_app in Hlater.
      apply app_eq_nil in Hlater as [Hnone _]. apply Hwel in Hnone. congruence.
    + unfold render in *. cbn [welcomeArea bubbles] in *. now rewrite Hgone.
Qed.

Lemma welcome_area_until_first_message_witness :
  welcomeArea (render (run (initial 0) [Begin HealthCheck 1 1])) = true
  /\ welcomeArea (render (run (initial 0) Examples.quick_follow_up)) = false.
Proof.
  destruct (welcome_area_until_first_message 0 [Begin HealthCheck 1 1] [])
    as [Hshown _].
  split.
  - apply Hshown. reflexivity.
  - reflexivity.
Defined.

(** X15: every suggestion the interface offers sends a chat turn when
    clicked, whatever the status: the starter suggestions send their own
    fixed sentence, a quick-action suggestion sends the prompt mapped to
    its identifier or, for the identifier "check_completeness", which the
    mapping lacks, the identifier itself.  No suggestion is offered when a
    message has been exchanged and no data is loaded. *)
Theorem suggestions_send_chat_turns (s : AppState) (sug : suggestion)
  (now stamp : Z) :
  (In sug (quickActions (render s)) ->
   exists msg,
     clickSuggestion now stamp (action sug)
     = Normal (handleSendMessage_begin now stamp (VStr msg))
     /\ snd (handleSendMessage_begin now stamp (VStr msg))
        = ApiService.POST "/chat" (VObj [("message", VStr msg)])
     /\ msg <> EmptyString
     /\ msg = match action sug with
              | SendMessage m => m
              | QuickAction a => default a (actionMap !! a)
              end)
  /\ clickSuggestion now stamp (QuickAction "check_completeness")
     = Normal (handleSendMessage_begin now stamp (VStr "check_completeness"))
  /\ (quickActions (render s) = []
      <-> isDataLoaded s = false /\ List.length (messages s) <> 1%nat).
Proof.
  split; [|split].
  - unfold render. cbn [quickActions].
    destruct (isDataLoaded s), (List.length (messages s) =? 1)%nat; simpl;
      intros H;
      repeat (destruct H as [<-|H];
              [eexists; repeat split; discriminate|]);
      contradiction.
  - reflexivity.
  - unfold render. cbn [quickActions].
    destruct (isDataLoaded s); simpl.
    + split; [discriminate|]. now intros [? _].
    + destruct (Nat.eqb_spec (List.length (messages s)) 1) as [->|Hne]; simpl.
      * split; [discriminate|]. intros [_ H]. contradiction.
      * split; [now split|reflexivity].
Qed.

Lemma suggestions_send_chat_turns_witness :
  exists msg,
    clickSuggestion 3 3 (QuickAction "detect_anomalies")
    = Normal (handleSendMessage_begin 3 3 (VStr msg))
    /\ msg = "Please detect any anomalies in my data".
Proof.
  destruct (suggestions_send_chat_turns
              {| dataPath := "a.csv"; isDataLoaded := true;
                 appStatus := connected; messages := [welcome 0] |}
              {| text := "Detect Anomalies";
                 action := QuickAction "detect_anomalies" |} 3 3)
    as [Hclick _].
  destruct Hclick as (msg & Hmsg & _ & _ & Heq).
  - simpl. right. left. reflexivity.
  - exists msg. split; [exact Hmsg|exact Heq].
Defined.

End chat_interface.

(* ===================================================================== *)
(** * Further properties: the sidebar and the header                      *)
(* ===================================================================== *)

Section sidebar_and_header.

Import App Session Facts Builtins.





Lemma after_last_slash_spec s :
  match after_last_slash s with
  | Some t => (exists dir, s = dir ++ "/" ++ t) /\ every no_slash t = true
  | None => every no_slash s = true
  end.
Proof.
  induction s as [|c s IH]; [reflexivity|].
  cbn [after_last_slash]. destruct (after_last_slash s) as [t|].
  - destruct IH as [(dir & Hs) Ht]. split; [|exact Ht].
    exists (String c dir). now rewrite append_cons, <- Hs.
  - destruct (Ascii.eqb_spec c "/"%char) as [->|Hne].
    + split; [|exact IH]. exists EmptyString. reflexivity.
    + cbn [every]. rewrite IH. unfold no_slash.
      now rewrite (proj2 (Ascii.eqb_neq _ _) Hne).
Qed.

(** X17: the file name the sidebar shows for the loaded path contains no
    ['/'] and is what follows the last ['/'] of the path, or the whole
    path when it has none; a path that ends in ['/'] shows an empty name,
    and backslashes do not separate. *)
Theorem fileName_is_last_segment (dataPath : string) :
  every no_slash (Sidebar.fileName dataPath) = true
  /\ ((exists dir, dataPath = dir ++ "/" ++ Sidebar.fileName dataPath)
      \/ (Sidebar.fileName dataPath = dataPath
          /\ every no_slash dataPath = true))
  /\ Sidebar.fileName (dataPath ++ "/") = EmptyString.
Proof.
  unfold Sidebar.fileName, split_pop.
  pose proof (after_last_slash_spec dataPath) as H.
  split; [|split].
  - destruct (after_last_slash dataPath); simpl; [apply H|exact H].
  - destruct (after_last_slash dataPath); simpl; [left; apply H|now right].
  - clear H. induction dataPath as [|c s IH]; [reflexivity|].
    rewrite append_cons. cbn [after_last_slash].
    destruct (after_last_slash (s ++ "/")) as [t|] eqn:E; [exact IH|].
    exfalso. clear IH. induction s as [|d s IHs]; [discriminate E|].
    rewrite append_cons in E. cbn [after_last_slash] in E.
    destruct (after_last_slash (s ++ "/")); [discriminate E|].
    now apply IHs.
Qed.

(** X18: the "Run Full Analysis" button does nothing before data is
    loaded; afterwards it does not send a chat turn but registers the
    empty path as data source.  When the backend accepts, the stored path
    and the file name shown become empty; when it refuses, the status is
    error and the data stays marked as loaded under the old path. *)
Theorem run_full_analysis_registers_empty_path (s : AppState) (now stamp : Z)
  (r : completion value) :
  Sidebar.runFullAnalysis false = None
  /\ Sidebar.runFullAnalysis true
     = Some ([SetAppStatus loading],
             ApiService.POST "/upload-data"
               (VObj [("file_path", VStr EmptyString)]))
  /\ let s' := step s (Settle (DataUpload EmptyString) now stamp r) in
     match r with
     | Normal _ =>
         dataPath s' = EmptyString /\ isDataLoaded s' = true
         /\ appStatus s' = connected
         /\ Sidebar.fileName (dataPath s') = EmptyString
     | Throw _ =>
         dataPath s' = dataPath s /\ isDataLoaded s' = isDataLoaded s
         /\ appStatus s' = error
     end.
Proof. destruct r; repeat split. Qed.

(** X19: the header shows a different text for each of the seven
    statuses, so the text identifies the status; the colour does not:
    idle and connecting share the default colour.  The sidebar paints the
    status green for connected and red for every other status. *)
Theorem header_text_identifies_status (s1 s2 : SessionStatus) :
  (Header.text (Header.getStatusConfig s1) = Header.text (Header.getStatusConfig s2)
   <-> s1 = s2)
  /\ Header.color idle = Header.color connecting
  /\ (Sidebar.statusColor s1 = "#10B981" <-> s1 = connected)
  /\ (s1 <> connected -> Sidebar.statusColor s1 = "#EF4444").
Proof.
  split; [|split; [reflexivity|split]].
  - split; [|now intros ->]. destruct s1, s2; simpl; intros H;
      reflexivity || discriminate H.
  - destruct s1; simpl; split; intros H; reflexivity || discriminate H.
  - destruct s1; simpl; intros H; reflexivity || contradiction.
Qed.

End sidebar_and_header.

(* ===================================================================== *)
(** * Further properties: tables                                          *)
(* ===================================================================== *)

Section tables.

Import Facts Builtins DataTable.

Lemma filter_elems_In (cb : value -> completion value) l fl :
  filter_elems cb l = Normal fl ->
  forall x, In x fl ->
    In x l /\ exists r, cb x = Normal r /\ truthy r = true.
Proof.
  revert fl. induction l as [|y l IH]; intros fl; simpl.
  - intros [= <-] x [].
  - destruct (cb y) as [r|e] eqn:Hy; [|discriminate]. simpl.
    destruct (filter_elems cb l) as [fl'|e] eqn:Hl; [|discriminate]. simpl.
    intros [= <-] x Hx. destruct (truthy r) eqn:Hr.
    + destruct Hx as [<-|Hx].
      * split; [now left|]. now exists r.
      * destruct (IH fl' eq_refl x Hx) as [Hin Hcb]. split; [now right|exact Hcb].
    + destruct (IH fl' eq_refl x Hx) as [Hin Hcb]. split; [now right|exact Hcb].
Qed.

Lemma currentPage_act sortable st a :
  currentPage (act sortable st a) = currentPage st.
Proof.
  destruct a as [term|columnIndex]; [reflexivity|].
  unfold act, handleSort. now destruct sortable.
Qed.

Lemma currentPage_reachable sortable actions st :
  currentPage (fold_left (act sortable) actions st) = currentPage st.
Proof.
  revert st. induction actions as [|a actions IH]; intros st; [reflexivity|].
  simpl. now rewrite IH, currentPage_act.
Qed.

Lemma more_than_one_page n :
  (1 <? (n + itemsPerPage - 1) / itemsPerPage)%nat = (10 <? n)%nat.
Proof.
  unfold itemsPerPage.
  destruct (Nat.ltb_spec 10 n) as [H|H].
  - apply Nat.ltb_lt.
    assert (Hdiv : (20 / 10 <= (n + 10 - 1) / 10)%nat)
      by (apply Nat.Div0.div_le_mono; lia).
    change (20 / 10)%nat with 2%nat in Hdiv. lia.
  - apply Nat.ltb_ge.
    assert (Hdiv : ((n + 10 - 1) / 10 <= 19 / 10)%nat)
      by (apply Nat.Div0.div_le_mono; lia).
    change (19 / 10)%nat with 1%nat in Hdiv. lia.
Qed.

(** X20: a table needs its [rows]: when the field is absent or [null] the
    component throws as soon as it renders, whatever the headers; with an
    empty array of rows it shows the note for no data, even when the
    headers are absent.  [renderComponent] passes an absent [rows] on as it
    is. *)
Theorem table_needs_rows (lt : value -> value -> completion bool)
  (headers : value) (st : State) (c : value) :
  DataTable lt headers VUndefined st = Throw (cannot_read VUndefined "filter")
  /\ DataTable lt headers VNull st = Throw (cannot_read VNull "filter")
  /\ DataTable lt headers (VArr []) st
     = Normal (NoDataMessage
                 (if truthy (VStr (searchTerm st))
                  then "No results found for " ++ App.dquote ++ searchTerm st
                       ++ App.dquote
                  else "No data available"))
  /\ (is_string "table" (get_opt c "type") = true ->
      MessageBubble.renderComponent c
      = Normal (Some (MessageBubble.DataTable (get_opt c "title")
                        (get_opt c "headers") (get_opt c "rows")))).
Proof.
  split; [reflexivity|]. split; [reflexivity|]. split.
  - unfold DataTable, sortedRows. simpl.
    destruct (currentPage st) as [|p]; [reflexivity|].
    now rewrite skipn_nil.
  - intros Ht.
    assert (Hn : nullish c = false).
    { unfold get_opt in Ht. now destruct (nullish c). }
    unfold MessageBubble.renderComponent.
    rewrite !(get_not_nullish _ _ Hn). simpl. now rewrite Ht.
Qed.

Lemma table_needs_rows_witness :
  MessageBubble.renderComponent
    (VObj [("type", VStr "table"); ("title", VStr "Missing values")])
  = Normal (Some (MessageBubble.DataTable (VStr "Missing values")
                    VUndefined VUndefined)).
Proof.
  destruct (table_needs_rows numeric_lt VUndefined initial
              (VObj [("type", VStr "table"); ("title", VStr "Missing values")]))
    as (_ & _ & _ & Hrender).
  apply Hrender. reflexivity.
Defined.

(** X21: the table has no control that changes the page, so in every
    state the user can reach by searching and clicking headers the page is
    the first one: at most ten rows are shown, they are the first ten of
    the sorted rows, and the footer, shown exactly when there are more than
    ten rows, reads "Showing 1-10 of N".  Rows beyond the tenth can only be
    reached by searching or sorting. *)
Theorem only_first_ten_rows (lt : value -> value -> completion bool)
  (headers rows : value) (sortable : bool) (actions : list action)
  (sorted : list value) (hs : list value) (body : list (list string))
  (footer : option (nat * nat * nat)) :
  let st := fold_left (act sortable) actions initial in
  sortedRows lt st rows = Normal sorted ->
  DataTable lt headers rows st = Normal (Table hs body footer) ->
  currentPage st = 1%nat
  /\ map_elems rowTexts (firstn 10 sorted) = Normal body
  /\ List.length body = Nat.min 10 (List.length sorted)
  /\ footer = (if (10 <? List.length sorted)%nat
               then Some (1, 10, List.length sorted)%nat else None).
Proof.
  intros st Hsorted Hview.
  assert (Hpage : currentPage st = 1%nat)
    by (unfold st; now rewrite currentPage_reachable).
  unfold DataTable in Hview. rewrite Hsorted, Hpage in Hview.
  cbn [mbind completion_bind] in Hview.
  change (firstn itemsPerPage (skipn ((1 - 1) * itemsPerPage) sorted))
    with (firstn 10 sorted) in Hview.
  change ((1 - 1) * itemsPerPage + 1)%nat with 1%nat in Hview.
  change ((1 - 1) * itemsPerPage + itemsPerPage)%nat with 10%nat in Hview.
  rewrite more_than_one_page in Hview.
  destruct (firstn 10 sorted) as [|row page] eqn:Hfirst; [discriminate Hview|].
  destruct headers as [| | | | |cells| |]; try discriminate Hview.
  cbn [mbind completion_bind] in Hview.
  destruct (map_elems rowTexts (row :: page)) as [texts|e] eqn:Hbody;
    [|discriminate Hview].
  cbn [mbind completion_bind] in Hview. injection Hview as <- <- <-.
  split; [exact Hpage|]. split; [reflexivity|]. split.
  - destruct (map_elems_lookup _ _ _ Hbody) as [-> _].
    rewrite <- Hfirst. apply length_firstn.
  - transitivity (if (10 <? List.length sorted)%nat
                  then Some (1, Nat.min 10 (List.length sorted), List.length sorted)%nat
                  else None); [reflexivity|].
    destruct (Nat.ltb_spec 10 (List.length sorted)) as [H|H]; [|reflexivity].
    now rewrite Nat.min_l by lia.
Qed.

Lemma only_first_ten_rows_witness :
  exists body,
    DataTable numeric_lt (VArr [VStr "campaign"])
      (VArr (repeat (VArr [VStr "Trending Now"]) 12))
      (fold_left (act true) [Search "trend"] initial)
    = Normal (Table [VStr "campaign"] body (Some (1, 10, 12)%nat))
    /\ List.length body = 10%nat.
Proof.
  destruct (only_first_ten_rows numeric_lt (VArr [VStr "campaign"])
              (VArr (repeat (VArr [VStr "Trending Now"]) 12)) true
              [Search "trend"]
              (repeat (VArr [VStr "Trending Now"]) 12)
              [VStr "campaign"]
              (repeat ["Trending Now"] 10)
              (Some (1, 10, 12)%nat))
    as (_ & _ & Hlen & _).
  - reflexivity.
  - reflexivity.
  - exists (repeat ["Trending Now"] 10). split; [reflexivity|exact Hlen].
Defined.

(** X22: a click on a column header selects that column; the direction is
    ascending, unless the column was already selected ascending, and then
    it is descending, so repeated clicks on one header alternate and a
    click on another header starts ascending again.  The search term is
    kept, and a table that is not sortable ignores the click. *)
Theorem handleSort_toggles (columnIndex other : nat) (st : State) :
  let st1 := handleSort true columnIndex st in
  key (sortConfig st1) = Some columnIndex
  /\ searchTerm st1 = searchTerm st
  /\ (dir (sortConfig st1) = desc
      <-> key (sortConfig st) = Some columnIndex /\ dir (sortConfig st) = asc)
  /\ dir (sortConfig (handleSort true columnIndex st1)) = flip (dir (sortConfig st1))
  /\ (other <> columnIndex -> dir (sortConfig (handleSort true other st1)) = asc)
  /\ handleSort false columnIndex st = st.
Proof.
  unfold handleSort. simpl.
  destruct (key (sortConfig st)) as [k|] eqn:Hk;
    destruct (dir (sortConfig st)) eqn:Hd; simpl;
    try destruct (Nat.eqb_spec k columnIndex) as [->|Hne]; simpl;
    rewrite ?Nat.eqb_refl; simpl;
    repeat split; try easy;
    try (intros Hother; now rewrite (proj2 (Nat.eqb_neq _ _) (not_eq_sym Hother)));
    try (intros [[= ?] _]; contradiction).
Qed.

Lemma handleSort_toggles_witness :
  dir (sortConfig (handleSort true 2 (handleSort true 1 (handleSort true 1 initial))))
  = asc.
Proof.
  destruct (handleSort_toggles 1 2 (handleSort true 1 initial))
    as (_ & _ & _ & _ & Hother & _).
  apply Hother. lia.
Defined.

Lemma sort_unordered {A} (cmp : A -> A -> completion Z) l :
  (forall a b, cmp a b = Normal 0%Z) -> sort cmp l = Normal l.
Proof.
  intros Hcmp. induction l as [|x l IH]; [reflexivity|].
  simpl. rewrite IH. simpl. destruct l as [|y l]; [reflexivity|].
  simpl. now rewrite Hcmp.
Qed.

(** X23: the first column cannot be sorted.  Its index 0 is falsy like the
    [null] of "no column selected", so the comparator answers 0 for every
    pair of rows and the rows stay in their filtered order, in both
    directions: a click on the first header changes the sort state and the
    arrow but not the rows. *)
Theorem first_column_never_sorts (lt : value -> value -> completion bool)
  (st : State) (rows : value) :
  (key (sortConfig st) = None \/ key (sortConfig st) = Some 0%nat ->
   sortedRows lt st rows = filteredRows (searchTerm st) rows)
  /\ sortedRows lt (handleSort true 0 st) rows
     = filteredRows (searchTerm st) rows
  /\ sortedRows lt (handleSort true 0 (handleSort true 0 st)) rows
     = filteredRows (searchTerm st) rows
  /\ key (sortConfig (handleSort true 0 st)) = Some 0%nat.
Proof.
  assert (Hsort : forall st',
             key (sortConfig st') = None \/ key (sortConfig st') = Some 0%nat ->
             sortedRows lt st' rows = filteredRows (searchTerm st') rows).
  { intros st' Hkey. unfold sortedRows.
    destruct (filteredRows (searchTerm st') rows) as [l|e]; [|reflexivity].
    simpl. apply sort_unordered. intros a b. unfold compareRows.
    now destruct Hkey as [-> | ->]. }
  split; [apply Hsort|]. split; [|split].
  - rewrite Hsort; [reflexivity|now right].
  - rewrite Hsort; [reflexivity|now right].
  - reflexivity.
Qed.

Lemma first_column_never_sorts_witness :
  sortedRows numeric_lt initial
    (VArr [VArr [VNum 3; VStr "c"]; VArr [VNum 1; VStr "a"]])
  = Normal [VArr [VNum 3; VStr "c"]; VArr [VNum 1; VStr "a"]].
Proof.
  destruct (first_column_never_sorts numeric_lt initial
              (VArr [VArr [VNum 3; VStr "c"]; VArr [VNum 1; VStr "a"]]))
    as (Hsame & _).
  rewrite Hsame; [reflexivity|now left].
Defined.

Section insertion.

Context {A : Type} (num : A -> option Z) (d : direction)
  (cmp : A -> A -> completion Z).

Hypothesis cmp_num : forall a b x y,
  num a = Some x -> num b = Some y ->
  exists c, cmp a b = Normal c /\ ((0 < c)%Z <-> ~ in_order d x y).

Lemma in_order_total x y : ~ in_order d x y -> in_order d y x.
Proof. destruct d; simpl; lia. Qed.

Lemma insert_sorted_ok x l :
  is_Some (num x) -> Forall (fun a => is_Some (num a)) l -> Sorted (ordered num d) l ->
  exists l', insert_sorted cmp x l = Normal l'
    /\ Permutation (x :: l) l' /\ Sorted (ordered num d) l'
    /\ forall a, ordered num d a x -> HdRel (ordered num d) a l -> HdRel (ordered num d) a l'.
Proof.
  intros [nx Hx] Hnum Hsorted. induction l as [|y l IH].
  - exists [x]. split; [reflexivity|]. split; [reflexivity|].
    split; [repeat constructor|]. intros a Ha _. now constructor.
  - apply Forall_cons in Hnum as [[ny Hy] Hnum].
    apply Sorted_inv in Hsorted as [Hsorted Hhd].
    destruct (cmp_num x y nx ny Hx Hy) as (c & Hc & Hpos).
    cbn [insert_sorted]. rewrite Hc. cbn [mbind completion_bind].
    destruct (0 <? c)%Z eqn:E.
    + apply Z.ltb_lt, Hpos, in_order_total in E.
      destruct (IH Hnum Hsorted) as (l' & Hl' & Hperm & Hs' & Hrel).
      rewrite Hl'. cbn [mbind completion_bind]. exists (y :: l').
      split; [reflexivity|]. split; [|split].
      * rewrite perm_swap. now constructor.
      * constructor; [exact Hs'|]. apply Hrel; [|exact Hhd].
        now exists ny, nx.
      * intros a _ Ha. apply HdRel_inv in Ha. now constructor.
    + exists (x :: y :: l). split; [reflexivity|]. split; [reflexivity|].
      split.
      * constructor; [now constructor|]. constructor. exists nx, ny.
        repeat split; try assumption.
        destruct (Z.ltb_spec 0 c) as [|Hle]; [discriminate|].
        destruct d; simpl in *; lia.
      * intros a Ha _. now constructor.
Qed.

Lemma sort_ok l :
  Forall (fun a => is_Some (num a)) l ->
  exists l', sort cmp l = Normal l' /\ Permutation l l' /\ Sorted (ordered num d) l'.
Proof.
  induction l as [|x l IH]; intros Hnum.
  - exists []. repeat split; constructor.
  - apply Forall_cons in Hnum as [Hx Hnum].
    destruct (IH Hnum) as (l' & Hl' & Hperm & Hs').
    destruct (insert_sorted_ok x l' Hx) as (l'' & Hl'' & Hperm' & Hs'' & _);
      [now rewrite <- Hperm|exact Hs'|].
    exists l''. cbn [sort]. rewrite Hl'. cbn [mbind completion_bind].
    split; [exact Hl''|]. split; [|exact Hs''].
    now rewrite <- Hperm', <- Hperm.
Qed.

Lemma ordered_numbers l :
  Sorted (ordered num d) l -> Sorted (in_order d) (omap num l).
Proof.
  induction 1 as [|a l _ IH Hhd]; [constructor|].
  destruct Hhd as [|b l (x & y & Hx & Hy & Hxy)].
  - change (omap num [a]) with (match num a with Some x => [x] | None => [] end).
    destruct (num a); repeat constructor.
  - change (omap num (a :: b :: l))
      with (match num a with
            | Some x => x :: omap num (b :: l)
            | None => omap num (b :: l)
            end).
    rewrite Hx. constructor; [exact IH|].
    change (omap num (b :: l))
      with (match num b with
            | Some y => y :: omap num l
            | None => omap num l
            end).
    rewrite Hy. now constructor.
Qed.

End insertion.

(** X24: for a column other than the first whose cells are all integers,
    a click on its header does sort: the sorted rows are the filtered rows
    rearranged, and their numbers in that column ascend, or descend after a
    second click. *)
Theorem numeric_column_is_sorted (lt : value -> value -> completion bool)
  (st : State) (k : nat) (rows : value) (l : list value) :
  (forall x y, lt (VNum x) (VNum y) = Normal (x <? y)%Z) ->
  key (sortConfig st) = Some (S k) ->
  filteredRows (searchTerm st) rows = Normal l ->
  Forall (fun row => is_Some (number_at (S k) row)) l ->
  exists sorted,
    sortedRows lt st rows = Normal sorted
    /\ Permutation l sorted
    /\ Sorted (in_order (dir (sortConfig st))) (omap (number_at (S k)) sorted).
Proof.
  intros Hlt Hkey Hfiltered Hnum.
  destruct (sort_ok (number_at (S k)) (dir (sortConfig st))
              (compareRows lt (sortConfig st))) with (l := l)
    as (sorted & Hsorted & Hperm & Hord).
  - intros a b x y Ha Hb. unfold compareRows. rewrite Hkey.
    unfold number_at in Ha, Hb.
    destruct (cell a (S k)) as [| | |na| | | |]; try discriminate Ha.
    destruct (cell b (S k)) as [| | |nb| | | |]; try discriminate Hb.
    injection Ha as ->. injection Hb as ->.
    rewrite !Hlt. cbn [mbind completion_bind].
    destruct (Z.ltb_spec x y), (Z.ltb_spec y x), (dir (sortConfig st));
      eexists; (split; [reflexivity|]); simpl; lia.
  - exact Hnum.
  - exists sorted. unfold sortedRows. rewrite Hfiltered.
    split; [exact Hsorted|]. split; [exact Hperm|].
    now apply ordered_numbers.
Qed.

Lemma numeric_column_is_sorted_witness :
  exists sorted,
    sortedRows numeric_lt (handleSort true 1 initial)
      (VArr [VArr [VStr "Spring Sale"; VNum 300];
             VArr [VStr "Trending Now"; VNum 9000];
             VArr [VStr "Newsletter"; VNum 120]])
    = Normal sorted
    /\ Sorted Z.le (omap (number_at 1) sorted).
Proof.
  destruct (numeric_column_is_sorted numeric_lt (handleSort true 1 initial) 0
              (VArr [VArr [VStr "Spring Sale"; VNum 300];
                     VArr [VStr "Trending Now"; VNum 9000];
                     VArr [VStr "Newsletter"; VNum 120]])
              [VArr [VStr "Spring Sale"; VNum 300];
               VArr [VStr "Trending Now"; VNum 9000];
               VArr [VStr "Newsletter"; VNum 120]])
    as (sorted & Hsorted & _ & Hord).
  - reflexivity.
  - reflexivity.
  - reflexivity.
  - repeat constructor; eexists; reflexivity.
  - exists sorted. split; [exact Hsorted|exact Hord].
Defined.

Lemma includes_empty s : includes EmptyString s = true.
Proof. now destruct s. Qed.

Lemma keep_row_blank_search row :
  printable_row row = true ->
  exists r, some "row" row (cellMatches EmptyString) = Normal r
    /\ truthy r = has_cells row.
Proof.
  destruct row as [| | | | |cells| |]; try discriminate. simpl.
  destruct cells as [|c cells]; [intros _; now eexists|].
  simpl. intros [Hc _]%andb_prop. unfold printable in Hc.
  unfold cellMatches. destruct (toStr c) as [s|e]; [|discriminate Hc].
  simpl. rewrite includes_empty. simpl. now eexists.
Qed.

(** X25: a row without cells is never shown, whatever the search term:
    every row that passes the filter is one of the given rows and has at
    least one cell.  With an empty search term the filter keeps exactly the
    rows that have a cell, in their order. *)
Theorem rows_without_cells_are_dropped (term : string) (l fl : list value) :
  (filteredRows term (VArr l) = Normal fl ->
   forall row, In row fl -> In row l /\ has_cells row = true)
  /\ (forallb printable_row l = true ->
      filteredRows EmptyString (VArr l) = Normal (List.filter has_cells l)).
Proof.
  split.
  - intros Hf row Hrow. simpl in Hf.
    destruct (filter_elems_In _ _ _ Hf row Hrow) as [Hin (r & Hr & Ht)].
    split; [exact Hin|].
    destruct row as [| | | | |cells| |]; try discriminate Hr.
    destruct cells as [|c cells]; [|reflexivity].
    simpl in Hr. injection Hr as <-. discriminate Ht.
  - intros Hl. simpl. apply filter_elems_filter.
    apply List.Forall_forall. intros row Hrow. rewrite forallb_forall in Hl.
    apply keep_row_blank_search, Hl, Hrow.
Qed.

Lemma rows_without_cells_are_dropped_witness :
  filteredRows EmptyString (VArr [VArr []; VArr [VStr "Newsletter"; VNum 120]])
  = Normal [VArr [VStr "Newsletter"; VNum 120]].
Proof.
  destruct (rows_without_cells_are_dropped EmptyString
              [VArr []; VArr [VStr "Newsletter"; VNum 120]] []) as [_ Hblank].
  apply Hblank. reflexivity.
Defined.

End tables.

(* ===================================================================== *)
(** * Further properties: charts                                          *)
(* ===================================================================== *)

Section charts.

Import Spec Facts Builtins ChartDataset.

(** X26: the kind of a chart decides two things separately.  Line drawing,
    with filled area and points, is chosen only for the exact kind "line",
    and the solid bar colour only for the exact kind "bar"; a chart of any
    other kind, such as "pie", is therefore drawn as bars in the faint
    colour meant for the area under a line. *)
Theorem kind_decides_component_and_style (type title data : value) :
  type <> VUndefined ->
  has_data data = true ->
  exists component t labels label d,
    DataChart.DataChart type title data
    = Normal (DataChart.Chart component t labels label d)
    /\ (component = DataChart.Line <-> type = VStr "line")
    /\ (backgroundColor (datasetStyle type) = "rgba(59, 130, 246, 0.8)"
        <-> type = VStr "bar")
    /\ (fill (datasetStyle type) = true <-> type = VStr "line")
    /\ (type <> VStr "line" -> type <> VStr "bar" ->
        component = DataChart.Bar
        /\ backgroundColor (datasetStyle type) = "rgba(59, 130, 246, 0.1)"
        /\ fill (datasetStyle type) = false
        /\ pointRadius (datasetStyle type) = 0).
Proof.
  intros Hdef Hdata. unfold has_data in Hdata.
  apply andb_prop in Hdata as [Hdata Hlen]. apply andb_prop in Hdata as [Hdata Hy].
  apply andb_prop in Hdata as [Hd Hx]. apply negb_true_iff in Hlen.
  unfold DataChart.DataChart, datasetStyle.
  replace (match type with VUndefined => VStr "bar" | _ => type end) with type
    by now destruct type.
  rewrite Hd, Hx, Hy. simpl. rewrite Hlen.
  do 5 eexists. split; [reflexivity|].
  pose proof (is_string_true "line" type) as Hline.
  pose proof (is_string_true "bar" type) as Hbar.
  cbn [backgroundColor fill pointRadius].
  destruct (is_string "line" type) eqn:El, (is_string "bar" type) eqn:Eb;
    repeat split; intros; try easy;
    try (now apply Hline); try (now apply Hbar);
    try (exfalso; match goal with
                  | H : type <> VStr "line" |- _ => apply H; now apply Hline
                  | H : type <> VStr "bar" |- _ => apply H; now apply Hbar
                  end);
    try (match goal with
         | H : type = VStr _ |- _ =>
             (apply Hline in H || apply Hbar in H); discriminate H
         end).
Qed.

Lemma kind_decides_component_and_style_witness :
  exists t labels label d,
    DataChart.DataChart (VStr "pie") (VStr "Share of clicks") Examples.trend_data
    = Normal (DataChart.Chart DataChart.Bar t labels label d)
    /\ backgroundColor (datasetStyle (VStr "pie")) = "rgba(59, 130, 246, 0.1)".
Proof.
  destruct (kind_decides_component_and_style (VStr "pie")
              (VStr "Share of clicks") Examples.trend_data)
    as (component & t & labels & label & d & Hshow & _ & _ & _ & Hother).
  - discriminate.
  - reflexivity.
  - destruct Hother as (Hbar & Hcolour & _); [discriminate|discriminate|].
    rewrite Hbar in Hshow. exists t, labels, label, d. split; assumption.
Defined.

Lemma lower_clean c : is_space c = false -> clean (lower c) = true.
Proof.
  destruct c as [[|] [|] [|] [|] [|] [|] [|] [|]]; vm_compute;
    intros H; reflexivity || discriminate H.
Qed.

Lemma clean_name in_run s :
  every clean (toLowerCase (replace_runs in_run s)) = true.
Proof.
  revert in_run. induction s as [|c s IH]; intros in_run; [reflexivity|].
  cbn [replace_runs]. destruct (is_space c) eqn:Hc.
  - destruct in_run; [apply IH|].
    cbn [toLowerCase every]. now rewrite IH.
  - cbn [toLowerCase every]. now rewrite (lower_clean c Hc), IH.
Qed.

Lemma replace_runs_nonempty c s :
  toLowerCase (replace_runs false (String c s)) <> EmptyString.
Proof. cbn [replace_runs]. now destruct (is_space c). Qed.

(** X27: the file name given to a downloaded chart image is the title in
    lower case with every run of white space turned into one underscore,
    followed by ".png": it is never empty and holds neither white space nor
    an ASCII capital.  An empty or absent title gives "chart.png"; a title
    that is not text makes the download throw. *)
Theorem download_name_is_clean (title : value) :
  (nullish title = true \/ title = VStr EmptyString ->
   downloadName title = Normal "chart.png")
  /\ (forall s, title = VStr s ->
      exists base,
        downloadName title = Normal (base ++ ".png")
        /\ base <> EmptyString
        /\ every clean base = true
        /\ (s <> EmptyString -> base = toLowerCase (replace_whitespace s)))
  /\ (nullish title = false -> (forall s, title <> VStr s) ->
      downloadName title = Throw (not_a_function "title?.replace")).
Proof.
  split; [|split].
  - intros [H| ->]; [|reflexivity]. unfold downloadName. now rewrite H.
  - intros s ->. destruct s as [|c s].
    + exists "chart". split; [reflexivity|]. split; [discriminate|].
      split; [reflexivity|]. intros H. contradiction.
    + exists (toLowerCase (replace_whitespace (String c s))).
      unfold downloadName, replace_whitespace. cbn [nullish].
      pose proof (replace_runs_nonempty c s) as Hne.
      destruct (toLowerCase (replace_runs false (String c s))) as [|x r] eqn:E;
        [contradiction|].
      split; [reflexivity|]. split; [discriminate|]. split; [|reflexivity].
      rewrite <- E. apply clean_name.
  - intros Hn Hs. unfold downloadName. rewrite Hn.
    destruct title; try reflexivity. now destruct (Hs s).
Qed.

Lemma download_name_is_clean_witness :
  downloadName (VStr "Clicks  Over Time") = Normal "clicks_over_time.png".
Proof.
  destruct (download_name_is_clean (VStr "Clicks  Over Time")) as (_ & Hname & _).
  destruct (Hname "Clicks  Over Time" eq_refl) as (base & Hbase & _ & _ & Heq).
  rewrite Hbase, Heq; [reflexivity|discriminate].
Defined.

End charts.
